(** * Scrapebit SDK: the request engine and its error taxonomy

    A shallow embedding of [src/utils/errors.ts], [src/utils/http.ts] and
    of the [Scrapebit] facade constructor, followed by the properties of the
    retry loop, of response handling and of construction.

    Conventions of the embedding.
    - A JavaScript number is a [Z]: status codes, attempt indices, retry
      counts and millisecond values are integers in the source.  The only
      falsy number is therefore [0].
    - A value decoded by [response.json()] is a [json]; [undefined] is the
      [None] of [jsval = option json].
    - A JavaScript [throw] is the [Throw] of a [completion]; the thrown
      value is either one of the SDK's errors or a runtime [TypeError].
    - The promise returned by [fetch] is resolved by the environment: the
      outcome of the k-th call is given by a function of the attempt index.
      [await this.sleep(ms)] and every call of [fetch] are recorded, in
      order, in a trace of events. *)

From Stdlib Require Import ZArith List String Ascii Bool Lia DecimalString.
From Stdlib Require DecimalZ.
From Equations Require Import Equations.
Import ListNotations.

Set Warnings "-register-all".

Local Open Scope string_scope.
Local Open Scope Z_scope.

(* ------------------------------------------------------------------ *)
(** ** JavaScript values and the operations the source applies to them *)
(* ------------------------------------------------------------------ *)

Module Js.

(** The values [JSON.parse] produces.  Numbers are the integers; the
    fields of an object are listed once per key, as parsing leaves them
    (the last of two bindings of a key wins), and are looked up by key. *)
Inductive json : Type :=
| JNull
| JBool (b : bool)
| JNum (n : Z)
| JStr (s : string)
| JArr (items : list json)
| JObj (fields : list (string * json)).

(** [None] is [undefined]. *)
Definition jsval : Type := option json.
Definition undefined : jsval := None.

(** The runtime errors that the engine's own expressions can raise. *)
Inductive TypeError : Type :=
| ReadPropertyOfNull (prop : string)      (* null.prop *)
| InOperandNotObject (prop : string)      (* 'prop' in <primitive> *)
| CannotConvertToPrimitive.               (* String(obj), obj.toString not callable *)

Inductive completion (E A : Type) : Type :=
| Return (a : A)
| Throw (e : E).
Arguments Return {E A} a.
Arguments Throw {E A} e.

Definition bind {E A B} (m : completion E A) (k : A -> completion E B)
  : completion E B :=
  match m with
  | Return a => k a
  | Throw e => Throw e
  end.

Definition lift {E E' A} (f : E -> E') (m : completion E A) : completion E' A :=
  match m with
  | Return a => Return a
  | Throw e => Throw (f e)
  end.

(** ToBoolean. *)
Definition truthy (v : jsval) : bool :=
  match v with
  | None => false
  | Some JNull => false
  | Some (JBool b) => b
  | Some (JNum n) => negb (n =? 0)
  | Some (JStr s) => negb (s =? "")%string
  | Some (JArr _) => true
  | Some (JObj _) => true
  end.

(** [a || b]. *)
Definition or_else (a b : jsval) : jsval := if truthy a then a else b.

Fixpoint assoc {A} (k : string) (l : list (string * A)) : option A :=
  match l with
  | [] => None
  | (k', v) :: rest => if (k =? k')%string then Some v else assoc k rest
  end.

Definition has_key {A} (k : string) (l : list (string * A)) : bool :=
  match assoc k l with
  | Some _ => true
  | None => false
  end.

(** [data.prop], for the property names the engine reads: [error],
    [message], [code], [creditsRequired], [creditsRemaining], [retryAfter]
    and [data].  None of them is a property of an array or of the wrapper
    of a primitive, nor inherited from [Object.prototype], so only the own
    fields of a decoded object can answer; reading from [null] throws. *)
Definition get_prop (data : json) (prop : string) : completion TypeError jsval :=
  match data with
  | JNull => Throw (ReadPropertyOfNull prop)
  | JObj fields => Return (assoc prop fields)
  | _ => Return undefined
  end.

(** ['prop' in data], for the names [success] and [data]: the right operand
    must be an object (arrays are objects), anything else throws. *)
Definition has_prop (prop : string) (data : json) : completion TypeError bool :=
  match data with
  | JObj fields => Return (has_key prop fields)
  | JArr _ => Return false
  | _ => Throw (InOperandNotObject prop)
  end.

Definition string_of_Z (z : Z) : string := NilZero.string_of_int (Z.to_int z).

(** ToString, as applied by [new Error(message)], by template literals and
    by [parseInt].  A decoded object converts through
    [Object.prototype.toString] unless it has an own [toString] field, which
    is never callable in decoded JSON and makes the conversion throw.  An
    array joins the conversions of its elements, [null] elements as the
    empty string.  A number prints in decimal, which is how JavaScript
    prints an integer below 10^21 in absolute value.  [None] stands for the
    thrown [TypeError]. *)
Fixpoint to_string (v : json) : option string :=
  match v with
  | JNull => Some "null"
  | JBool true => Some "true"
  | JBool false => Some "false"
  | JNum n => Some (string_of_Z n)
  | JStr s => Some s
  | JObj fields => if has_key "toString" fields then None else Some "[object Object]"
  | JArr items =>
      (fix join (l : list json) : option string :=
         match l with
         | [] => Some ""
         | x :: rest =>
             match (match x with JNull => Some "" | _ => to_string x end) with
             | None => None
             | Some sx =>
                 match rest with
                 | [] => Some sx
                 | _ :: _ =>
                     match join rest with
                     | None => None
                     | Some sr => Some (sx ++ "," ++ sr)%string
                     end
                 end
             end
         end) items
  end.

Definition ToString (v : jsval) : completion TypeError string :=
  match v with
  | None => Return "undefined"
  | Some j => match to_string j with
              | Some s => Return s
              | None => Throw CannotConvertToPrimitive
              end
  end.

(** The white space [parseInt] skips (StrWhiteSpaceChar), on the bytes of
    the UTF-8 encoding of the string.  One byte: TAB, LF, VT, FF, CR and
    the space. *)
Definition is_space (c : ascii) : bool :=
  let n := N_of_ascii c in
  ((9 <=? n) && (n <=? 13) || (n =? 32))%N.

(** Two bytes: U+00A0, the no-break space. *)
Definition is_space2 (a b : ascii) : bool :=
  ((N_of_ascii a =? 194) && (N_of_ascii b =? 160))%N.

(** Three bytes: U+1680, U+2000 to U+200A, the line and paragraph
    separators U+2028 and U+2029, U+202F, U+205F, U+3000 and U+FEFF. *)
Definition is_space3 (a b c : ascii) : bool :=
  let x := N_of_ascii a in
  let y := N_of_ascii b in
  let z := N_of_ascii c in
  ((x =? 225) && (y =? 154) && (z =? 128)
   || (x =? 226) && (y =? 128)
      && ((128 <=? z) && (z <=? 138) || (z =? 168) || (z =? 169) || (z =? 175))
   || (x =? 226) && (y =? 129) && (z =? 159)
   || (x =? 227) && (y =? 128) && (z =? 128)
   || (x =? 239) && (y =? 187) && (z =? 191))%N.

(** The first byte of a white space character of two or three bytes. *)
Definition starts_wide_space (a : ascii) : bool :=
  let x := N_of_ascii a in
  ((x =? 194) || (x =? 225) || (x =? 226) || (x =? 227) || (x =? 239))%N.

Fixpoint skip_space (s : string) : string :=
  match s with
  | String a rest =>
      if is_space a then skip_space rest
      else if starts_wide_space a then
        match rest with
        | String b rest2 =>
            if is_space2 a b then skip_space rest2
            else match rest2 with
                 | String c rest3 => if is_space3 a b c then skip_space rest3 else s
                 | EmptyString => s
                 end
        | EmptyString => s
        end
      else s
  | EmptyString => s
  end.

Definition digit_of (c : ascii) : option Z :=
  let n := N_of_ascii c in
  if ((48 <=? n) && (n <=? 57))%N then Some (Z.of_N n - 48) else None.

(** The value of the longest prefix of decimal digits, [acc] being the
    value of the digits already read ([None] when there is none). *)
Fixpoint digits (s : string) (acc : option Z) : option Z :=
  match s with
  | String c rest =>
      match digit_of c with
      | Some d => digits rest (Some (10 * match acc with Some a => a | None => 0 end + d))
      | None => acc
      end
  | EmptyString => acc
  end.

(** [parseInt(s, 10)] on a string: leading white space, an optional sign,
    then the longest prefix of decimal digits; [None] is [NaN].  The value
    is the exact integer, which is what JavaScript computes as long as it
    is at most 2^53 in absolute value. *)
Definition parseInt10 (s : string) : option Z :=
  match skip_space s with
  | String "-" rest => option_map Z.opp (digits rest None)
  | String "+" rest => digits rest None
  | t => digits t None
  end.

(** [parseInt(v, 10)]: the argument is converted with ToString first. *)
Definition parseInt (v : jsval) : completion TypeError (option Z) :=
  bind (ToString v) (fun s => Return (parseInt10 s)).

(** [{ ...target, ...source }] on string-keyed records: a later binding
    replaces an earlier one of the same key. *)
Fixpoint set_key {A} (k : string) (v : A) (l : list (string * A)) : list (string * A) :=
  match l with
  | [] => [(k, v)]
  | (k', v') :: rest =>
      if (k =? k')%string then (k, v) :: rest else (k', v') :: set_key k v rest
  end.

Definition spread {A} (target source : list (string * A)) : list (string * A) :=
  fold_left (fun acc kv => set_key (fst kv) (snd kv) acc) source target.

End Js.

Import Js.

Notation "x <- m ;; k" := (bind m (fun x => k))
  (at level 61, m at next level, right associativity).


(* ------------------------------------------------------------------ *)
(** ** src/utils/errors.ts *)
(* ------------------------------------------------------------------ *)

Module Errors.

(** The class of an error, with the fields its subclass adds. *)
Inductive ErrorClass : Type :=
| ScrapebitErrorC
| AuthenticationErrorC
| AuthorizationErrorC
| NotFoundErrorC
| ValidationErrorC (field : option string)
| RateLimitErrorC (retryAfter : option Z)
| InsufficientCreditsErrorC (creditsRequired creditsRemaining : json)
| TimeoutErrorC
| NetworkErrorC
| ServerErrorC.

(** The fields of the base class.  [message] is a string because
    [super(message)] reaches [Error], which stores [ToString(message)]. *)
Record ScrapebitError : Type := mkScrapebitError {
  class : ErrorClass;
  message : string;
  code : json;
  statusCode : option Z;
  details : option (list (string * json))
}.

Definition name (e : ScrapebitError) : string :=
  match class e with
  | ScrapebitErrorC => "ScrapebitError"
  | AuthenticationErrorC => "AuthenticationError"
  | AuthorizationErrorC => "AuthorizationError"
  | NotFoundErrorC => "NotFoundError"
  | ValidationErrorC _ => "ValidationError"
  | RateLimitErrorC _ => "RateLimitError"
  | InsufficientCreditsErrorC _ _ => "InsufficientCreditsError"
  | TimeoutErrorC => "TimeoutError"
  | NetworkErrorC => "NetworkError"
  | ServerErrorC => "ServerError"
  end.

(** [new ScrapebitError(message, code = 'SCRAPEBIT_ERROR', statusCode?)]. *)
Definition ScrapebitError_new (message : string) (code : jsval) (statusCode : option Z)
  : ScrapebitError :=
  mkScrapebitError ScrapebitErrorC message
    (match code with Some c => c | None => JStr "SCRAPEBIT_ERROR" end)
    statusCode None.

Definition AuthenticationError_new (message : option string) : ScrapebitError :=
  mkScrapebitError AuthenticationErrorC
    (match message with Some m => m | None => "Invalid or missing API key" end)
    (JStr "AUTHENTICATION_ERROR") (Some 401) None.

Definition AuthorizationError_new (message : option string) : ScrapebitError :=
  mkScrapebitError AuthorizationErrorC
    (match message with Some m => m | None => "Insufficient permissions" end)
    (JStr "AUTHORIZATION_ERROR") (Some 403) None.

(** A falsy [id] (absent or empty) selects the short message. *)
Definition NotFoundError_new (resource : string) (id : option string) : ScrapebitError :=
  mkScrapebitError NotFoundErrorC
    (match id with
     | Some i => if (i =? "")%string then (resource ++ " not found")%string
                 else (resource ++ " with ID '" ++ i ++ "' not found")%string
     | None => (resource ++ " not found")%string
     end)
    (JStr "NOT_FOUND") (Some 404) None.

Definition ValidationError_new (message : string) (field : option string) : ScrapebitError :=
  mkScrapebitError (ValidationErrorC field) message (JStr "VALIDATION_ERROR") (Some 400)
    (match field with
     | Some f => if (f =? "")%string then None else Some [("field", JStr f)]
     | None => None
     end).

(** [retryAfter ? ... : ...]: a retry hint of [0] counts as absent. *)
Definition RateLimitError_new (retryAfter : option Z) : ScrapebitError :=
  let given := match retryAfter with Some n => negb (n =? 0) | None => false end in
  mkScrapebitError (RateLimitErrorC retryAfter)
    (match retryAfter with
     | Some n => if given
                 then ("Rate limit exceeded. Retry after " ++ string_of_Z n ++ " seconds.")%string
                 else "Rate limit exceeded."
     | None => "Rate limit exceeded."
     end)
    (JStr "RATE_LIMIT_EXCEEDED") (Some 429)
    (match retryAfter with
     | Some n => if given then Some [("retryAfter", JNum n)] else None
     | None => None
     end).

(** The message interpolates both arguments, which converts them with
    ToString before [super] is called. *)
Definition InsufficientCreditsError_new (creditsRequired creditsRemaining : json)
  : completion TypeError ScrapebitError :=
  required <- ToString (Some creditsRequired) ;;
  remaining <- ToString (Some creditsRemaining) ;;
  Return (mkScrapebitError (InsufficientCreditsErrorC creditsRequired creditsRemaining)
            ("Insufficient credits. Required: " ++ required ++ ", Remaining: " ++ remaining)%string
            (JStr "INSUFFICIENT_CREDITS") (Some 402)
            (Some [("creditsRequired", creditsRequired);
                   ("creditsRemaining", creditsRemaining)])).

Definition TimeoutError_new (timeoutMs : Z) : ScrapebitError :=
  mkScrapebitError TimeoutErrorC
    ("Request timed out after " ++ string_of_Z timeoutMs ++ "ms")%string
    (JStr "TIMEOUT") (Some 408) (Some [("timeoutMs", JNum timeoutMs)]).

Definition NetworkError_new (message : option string) : ScrapebitError :=
  mkScrapebitError NetworkErrorC
    (match message with Some m => m | None => "Network request failed" end)
    (JStr "NETWORK_ERROR") None None.

Definition ServerError_new (statusCode : Z) (message : option string) : ScrapebitError :=
  mkScrapebitError ServerErrorC
    (match message with Some m => m | None => "Internal server error" end)
    (JStr "SERVER_ERROR") (Some statusCode) None.

End Errors.

Import Errors.

(* ------------------------------------------------------------------ *)
(** ** src/utils/http.ts *)
(* ------------------------------------------------------------------ *)

Module Http.

Inductive Method : Type := GET | POST | PUT | PATCH | DELETE.

Definition Headers : Type := list (string * string).

(** [ScrapebitConfig] of src/types/index.ts: every field is optional. *)
Record ScrapebitConfig : Type := mkConfig {
  cfg_baseUrl : option string;
  cfg_timeout : option Z;
  cfg_retries : option Z;
  cfg_headers : option Headers
}.

Definition empty_config : ScrapebitConfig := mkConfig None None None None.

Record RequestOptions : Type := mkOptions {
  opt_method : option Method;
  opt_body : jsval;
  opt_headers : option Headers;
  opt_timeout : option Z
}.

Definition empty_options : RequestOptions := mkOptions None undefined None None.

Record HttpClient : Type := mkHttpClient {
  apiKey : string;
  baseUrl : string;
  timeout : Z;
  retries : Z;
  customHeaders : Headers
}.

(** [n || d] on an optional number: [undefined] and [0] are falsy. *)
Definition num_or (n : option Z) (d : Z) : Z :=
  match n with
  | Some v => if v =? 0 then d else v
  | None => d
  end.

(** [s || d] on an optional string: [undefined] and [''] are falsy. *)
Definition str_or (s : option string) (d : string) : string :=
  match s with
  | Some v => if (v =? "")%string then d else v
  | None => d
  end.

(** [v || d] where the result is used as a value. *)
Definition val_or (v : jsval) (d : json) : json :=
  match v with
  | Some j => if truthy v then j else d
  | None => d
  end.

Definition HttpClient_new (apiKey : string) (config : ScrapebitConfig) : HttpClient :=
  mkHttpClient apiKey
    (str_or (cfg_baseUrl config) "https://api.scrapebit.com/v1")
    (num_or (cfg_timeout config) 30000)
    (num_or (cfg_retries config) 3)
    (match cfg_headers config with Some h => h | None => [] end).

(** What [fetch] sees of a [Response]: [body] is what [response.json()]
    resolves to, [None] when it rejects. *)
Record Response : Type := mkResponse {
  status : Z;
  statusText : string;
  body : option json
}.

(** [response.ok] of the Fetch standard. *)
Definition ok (response : Response) : bool :=
  (200 <=? status response) && (status response <=? 299).

(** How the promise of one [fetch] call settles; a rejection carries the
    [name] and [message] of the error. *)
Inductive FetchOutcome : Type :=
| Resolved (response : Response)
| Rejected (name message : string).

(** What can be thrown inside [request]. *)
Inductive thrown : Type :=
| ThrownError (e : ScrapebitError)
| ThrownTypeError (t : TypeError).

Definition js {A} (m : completion TypeError A) : completion thrown A :=
  lift ThrownTypeError m.

(** The arguments of one [fetchWithTimeout] call; [call_body] is the value
    handed to [JSON.stringify], [undefined] for a falsy [options.body]. *)
Record FetchCall : Type := mkFetchCall {
  call_url : string;
  call_method : Method;
  call_headers : Headers;
  call_body : jsval;
  call_timeout : Z
}.

Inductive event : Type :=
| Fetch (attempt : Z) (call : FetchCall)
| Sleep (ms : Z).

Definition fetchWithTimeout (outcome : FetchOutcome) (timeout : Z)
  : completion thrown Response :=
  match outcome with
  | Resolved response => Return response
  | Rejected name message =>
      if (name =? "AbortError")%string
      then Throw (ThrownError (TimeoutError_new timeout))
      else Throw (ThrownError (NetworkError_new (Some message)))
  end.

(** The error that [handleErrorResponse] constructs, unless evaluating its
    arguments throws first. *)
Definition classify (statusCode : Z) (data : json) : completion TypeError ScrapebitError :=
  error <- get_prop data "error" ;;
  message <- (if truthy error then Return error
              else m <- get_prop data "message" ;;
                   Return (or_else m (Some (JStr "Unknown error")))) ;;
  code <- get_prop data "code" ;;
  if statusCode =? 401 then
    msg <- ToString message ;; Return (AuthenticationError_new (Some msg))
  else if statusCode =? 402 then
    required <- get_prop data "creditsRequired" ;;
    remaining <- get_prop data "creditsRemaining" ;;
    InsufficientCreditsError_new (val_or required (JNum 1)) (val_or remaining (JNum 0))
  else if statusCode =? 403 then
    msg <- ToString message ;; Return (AuthorizationError_new (Some msg))
  else if statusCode =? 404 then
    Return (NotFoundError_new "Resource" None)
  else if statusCode =? 429 then
    raw <- get_prop data "retryAfter" ;;
    parsed <- parseInt raw ;;
    Return (RateLimitError_new
              (match parsed with
               | Some n => if n =? 0 then None else Some n
               | None => None
               end))
  else if 500 <=? statusCode then
    msg <- ToString message ;; Return (ServerError_new statusCode (Some msg))
  else
    msg <- ToString message ;;
    Return (ScrapebitError_new msg (Some (val_or code (JStr "API_ERROR"))) (Some statusCode)).

(** [handleErrorResponse] has return type [never]: its result is the value
    it throws. *)
Definition handleErrorResponse (statusCode : Z) (data : json) : thrown :=
  match classify statusCode data with
  | Return e => ThrownError e
  | Throw t => ThrownTypeError t
  end.

Definition handleResponse (response : Response) : completion thrown jsval :=
  match body response with
  | None =>
      if negb (ok response)
      then Throw (ThrownError
                    (ServerError_new (status response)
                       (Some ("HTTP " ++ string_of_Z (status response) ++ ": "
                                ++ statusText response)%string)))
      else Return (Some (JObj []))
  | Some data =>
      if negb (ok response)
      then Throw (handleErrorResponse (status response) data)
      else
        has_success <- js (has_prop "success" data) ;;
        has_data <- (if has_success then js (has_prop "data" data) else Return false) ;;
        if has_data
        then js (get_prop data "data")
        else Return (Some data)
  end.

(** [error instanceof ScrapebitError && error.statusCode && error.statusCode < 500] *)
Definition is_client_error (error : thrown) : bool :=
  match error with
  | ThrownError e =>
      match statusCode e with
      | Some s => negb (s =? 0) && (s <? 500)
      | None => false
      end
  | ThrownTypeError _ => false
  end.

(** [Math.min(1000 * Math.pow(2, attempt), 10000)] *)
Definition backoff (attempt : Z) : Z := Z.min (1000 * 2 ^ attempt) 10000.

Section Request.

Variable this : HttpClient.
(** The environment: how the fetch issued at each attempt index settles. *)
Variable transport : Z -> FetchOutcome.
Variable call : FetchCall.

(** The body of the [try] block. *)
Definition attempt_once (attempt : Z) : completion thrown jsval :=
  response <- fetchWithTimeout (transport attempt) (call_timeout call) ;;
  handleResponse response.

(** The [for] loop of [request] from the test [attempt <= this.retries]
    on, followed by the [throw] after the loop.  The result comes with the
    events of the iterations performed. *)
Equations? request_loop (attempt : Z) (lastError : option thrown)
  : completion thrown jsval * list event
  by wf (Z.to_nat (retries this + 1 - attempt)) lt :=
request_loop attempt lastError with Z_le_gt_dec attempt (retries this) := {
  | left _ =>
      match attempt_once attempt with
      | Return value => (Return value, [Fetch attempt call])
      | Throw error =>
          if is_client_error error then (Throw error, [Fetch attempt call])
          else if attempt =? retries this then (Throw error, [Fetch attempt call])
          else
            let delay := backoff attempt in
            let rest := request_loop (attempt + 1) (Some error) in
            (fst rest, Fetch attempt call :: Sleep delay :: snd rest)
      end
  | right _ =>
      (Throw (match lastError with
              | Some error => error
              | None => ThrownError
                          (ScrapebitError_new "Request failed after retries" None None)
              end), [])
}.
Proof. lia. Qed.

End Request.

(** The part of [request] before the loop: the arguments every attempt
    passes to [fetchWithTimeout]. *)
Definition fetch_call (this : HttpClient) (endpoint : string) (options : RequestOptions)
  : FetchCall :=
  let url := (baseUrl this ++ endpoint)%string in
  let method := match opt_method options with Some m => m | None => GET end in
  let timeout := num_or (opt_timeout options) (timeout this) in
  let headers :=
    spread (spread [("Authorization", ("Bearer " ++ apiKey this)%string);
                    ("Content-Type", "application/json");
                    ("User-Agent", "scrapebit-sdk-node/1.0.0")]
                   (customHeaders this))
           (match opt_headers options with Some h => h | None => [] end) in
  let body := if truthy (opt_body options) then opt_body options else undefined in
  mkFetchCall url method headers body timeout.

Definition request (this : HttpClient) (transport : Z -> FetchOutcome)
    (endpoint : string) (options : RequestOptions)
  : completion thrown jsval * list event :=
  request_loop this transport (fetch_call this endpoint options) 0 None.

End Http.

Import Http.


(* ------------------------------------------------------------------ *)
(** ** The facade: the constructor of [Scrapebit] *)
(* ------------------------------------------------------------------ *)

Module Client.

(** The API modules ([content], [pdf], ...) only hold the shared [http]. *)
Record Scrapebit : Type := mkScrapebit {
  version : string;
  http : HttpClient
}.

Definition dquote : string := String (ascii_of_nat 34) EmptyString.

Definition prefix_warning : string :=
  ("Warning: API key does not start with " ++ dquote ++ "sb_live_" ++ dquote ++ ". "
   ++ "Make sure you are using a valid Scrapebit API key.")%string.

(** [new Scrapebit(apiKey, config)].  The key is whatever value the caller
    passes at run time.  The result comes with the lines written by
    [console.warn]; the constructor has no access to the transport. *)
Definition Scrapebit_new (apiKey : jsval) (config : ScrapebitConfig)
  : completion ScrapebitError Scrapebit * list string :=
  if negb (truthy apiKey) then
    (Throw (ValidationError_new "API key is required" None), [])
  else
    match apiKey with
    | Some (JStr key) =>
        (Return (mkScrapebit "1.0.0" (HttpClient_new key config)),
         if negb (String.prefix "sb_live_" key) then [prefix_warning] else [])
    | _ => (Throw (ValidationError_new "API key must be a string" None), [])
    end.

Definition createClient (apiKey : jsval) (config : option ScrapebitConfig)
  : completion ScrapebitError Scrapebit * list string :=
  Scrapebit_new apiKey (match config with Some c => c | None => empty_config end).

End Client.

Import Client.

(* ------------------------------------------------------------------ *)
(** ** src/utils/http.ts: the verbs *)
(* ------------------------------------------------------------------ *)

Module Verbs.

(** [Omit<RequestOptions, 'method' | 'body'>] *)
Record VerbOptions : Type := mkVerbOptions {
  vo_headers : option Headers;
  vo_timeout : option Z
}.

(** [{ ...options, method, body }]; [options] may be absent. *)
Definition with_verb (options : option VerbOptions) (method : Method) (body : jsval)
  : RequestOptions :=
  mkOptions (Some method) body
    (match options with Some o => vo_headers o | None => None end)
    (match options with Some o => vo_timeout o | None => None end).

Definition get (this : HttpClient) (transport : Z -> FetchOutcome)
    (endpoint : string) (options : option VerbOptions) :=
  request this transport endpoint (with_verb options GET undefined).

Definition post (this : HttpClient) (transport : Z -> FetchOutcome)
    (endpoint : string) (body : jsval) (options : option VerbOptions) :=
  request this transport endpoint (with_verb options POST body).

Definition put (this : HttpClient) (transport : Z -> FetchOutcome)
    (endpoint : string) (body : jsval) (options : option VerbOptions) :=
  request this transport endpoint (with_verb options PUT body).

Definition patch (this : HttpClient) (transport : Z -> FetchOutcome)
    (endpoint : string) (body : jsval) (options : option VerbOptions) :=
  request this transport endpoint (with_verb options PATCH body).

Definition delete (this : HttpClient) (transport : Z -> FetchOutcome)
    (endpoint : string) (options : option VerbOptions) :=
  request this transport endpoint (with_verb options DELETE undefined).

End Verbs.

(* ------------------------------------------------------------------ *)
(** ** [URLSearchParams], as the API modules use it *)
(* ------------------------------------------------------------------ *)

Module URLSearchParams.

(** The list of name-value pairs.  A string is the sequence of the bytes
    of its UTF-8 encoding, which is what the serializer works on. *)
Definition t : Type := list (string * string).

(** [params.set(name, value)]: the modules never set a name twice, so the
    list holds each name at most once. *)
Definition set (name value : string) (params : t) : t := set_key name value params.

Definition hex_digit (n : N) : ascii :=
  ascii_of_N (if (n <? 10)%N then 48 + n else 55 + n)%N.

(** The bytes the [application/x-www-form-urlencoded] serializer leaves as
    they are: ASCII letters and digits, [*], [-], [.] and [_]. *)
Definition unreserved (c : ascii) : bool :=
  let n := N_of_ascii c in
  ((48 <=? n) && (n <=? 57) || (65 <=? n) && (n <=? 90) || (97 <=? n) && (n <=? 122)
   || (n =? 42) || (n =? 45) || (n =? 46) || (n =? 95))%N.

(** A space becomes [+], any other byte outside the set becomes [%XX]. *)
Fixpoint encode (s : string) : string :=
  match s with
  | EmptyString => EmptyString
  | String c rest =>
      if (N_of_ascii c =? 32)%N then String "+" (encode rest)
      else if unreserved c then String c (encode rest)
      else String "%" (String (hex_digit (N_of_ascii c / 16))
                         (String (hex_digit (N_of_ascii c mod 16)) (encode rest)))
  end.

(** [params.toString()] *)
Fixpoint toString (params : t) : string :=
  match params with
  | [] => ""
  | (name, value) :: rest =>
      (encode name ++ "=" ++ encode value
         ++ match rest with [] => "" | _ :: _ => "&" ++ toString rest end)%string
  end.

End URLSearchParams.

(* ------------------------------------------------------------------ *)
(** ** src/api: the modules that call the engine *)
(* ------------------------------------------------------------------ *)

Module Api.

(** What an API method can throw: what [request] threw, or the
    [TypeError] of reading a property of [undefined]. *)
Inductive raised : Type :=
| Raised (t : thrown)
| ReadPropertyOfUndefined (prop : string).

Definition outcome : Type := (completion raised jsval * list event)%type.

(** [return this.http.verb(...)] *)
Definition returned (r : completion thrown jsval * list event) : outcome :=
  (lift Raised (fst r), snd r).

(** [await this.http.verb(...)] with the result dropped: [Promise<void>] *)
Definition awaited (r : completion thrown jsval * list event) : outcome :=
  (bind (lift Raised (fst r)) (fun _ => Return undefined), snd r).

(** [value.prop] outside the engine, for the names [data], [plan] and the
    fields of a plan, none of which a primitive or an array has. *)
Definition member (value : jsval) (prop : string) : completion raised jsval :=
  match value with
  | None => Throw (ReadPropertyOfUndefined prop)
  | Some v => lift (fun t => Raised (ThrownTypeError t)) (get_prop v prop)
  end.

(** [const response = await this.http.verb(...); return response.data] *)
Definition returned_data (r : completion thrown jsval * list event) : outcome :=
  (bind (lift Raised (fst r)) (fun response => member response "data"), snd r).

Record PaginationOptions : Type := mkPagination {
  page : option Z;
  limit : option Z
}.

(** [if (options?.name) params.set('name', options.name.toString())] *)
Definition set_number (name : string) (value : option Z) (params : URLSearchParams.t)
  : URLSearchParams.t :=
  match value with
  | Some n => if n =? 0 then params else URLSearchParams.set name (string_of_Z n) params
  | None => params
  end.

(** [if (options?.name) params.set('name', options.name)] *)
Definition set_string (name : string) (value : option string) (params : URLSearchParams.t)
  : URLSearchParams.t :=
  match value with
  | Some s => if (s =? "")%string then params else URLSearchParams.set name s params
  | None => params
  end.

(** [`${path}${query ? `?${query}` : ''}`] *)
Definition with_query (path : string) (params : URLSearchParams.t) : string :=
  let query := URLSearchParams.toString params in
  (path ++ (if (query =? "")%string then "" else "?" ++ query))%string.

Definition paginate (options : option PaginationOptions) : URLSearchParams.t :=
  set_number "limit" (match options with Some o => limit o | None => None end)
    (set_number "page" (match options with Some o => page o | None => None end) []).

End Api.

Module ContentApi.

Import Api.

Definition get (http : HttpClient) (transport : Z -> FetchOutcome) (id : string) : outcome :=
  returned (Verbs.get http transport ("/scrape/" ++ id)%string None).

Definition list (http : HttpClient) (transport : Z -> FetchOutcome)
    (options : option PaginationOptions) : outcome :=
  returned (Verbs.get http transport (with_query "/scrape" (paginate options)) None).

Definition delete (http : HttpClient) (transport : Z -> FetchOutcome) (id : string) : outcome :=
  awaited (Verbs.delete http transport ("/scrape/" ++ id)%string None).

Definition exportCsv (http : HttpClient) (transport : Z -> FetchOutcome) (id : string)
  : outcome :=
  returned (Verbs.get http transport ("/scrape/" ++ id ++ "/export/csv")%string None).

Definition exportJson (http : HttpClient) (transport : Z -> FetchOutcome) (id : string)
  : outcome :=
  returned (Verbs.get http transport ("/scrape/" ++ id ++ "/export/json")%string None).

End ContentApi.

Module CreditsApi.

Import Api.

Record UsageOptions : Type := mkUsageOptions {
  pagination : PaginationOptions;
  type : option string;
  startDate : option string;
  endDate : option string
}.

Definition getBalance (http : HttpClient) (transport : Z -> FetchOutcome) : outcome :=
  returned (Verbs.get http transport "/credits" None).

Definition usage_params (options : option UsageOptions) : URLSearchParams.t :=
  set_string "endDate" (match options with Some o => endDate o | None => None end)
    (set_string "startDate" (match options with Some o => startDate o | None => None end)
       (set_string "type" (match options with Some o => type o | None => None end)
          (paginate (option_map pagination options)))).

Definition getUsage (http : HttpClient) (transport : Z -> FetchOutcome)
    (options : option UsageOptions) : outcome :=
  returned (Verbs.get http transport (with_query "/credits/usage" (usage_params options)) None).

End CreditsApi.

Module MonitoringApi.

Import Api.

Definition create (http : HttpClient) (transport : Z -> FetchOutcome) (options : jsval)
  : outcome :=
  returned_data (Verbs.post http transport "/monitoring" options None).

Definition get (http : HttpClient) (transport : Z -> FetchOutcome) (id : string) : outcome :=
  returned_data (Verbs.get http transport ("/monitoring/" ++ id)%string None).

Definition update (http : HttpClient) (transport : Z -> FetchOutcome) (id : string)
    (options : jsval) : outcome :=
  returned_data (Verbs.patch http transport ("/monitoring/" ++ id)%string options None).

Definition delete (http : HttpClient) (transport : Z -> FetchOutcome) (id : string) : outcome :=
  awaited (Verbs.delete http transport ("/monitoring/" ++ id)%string None).

Definition pause (http : HttpClient) (transport : Z -> FetchOutcome) (id : string) : outcome :=
  awaited (Verbs.post http transport ("/monitoring/" ++ id ++ "/pause")%string undefined None).

Definition resume (http : HttpClient) (transport : Z -> FetchOutcome) (id : string) : outcome :=
  returned_data
    (Verbs.post http transport ("/monitoring/" ++ id ++ "/resume")%string undefined None).

Definition deleteChannel (http : HttpClient) (transport : Z -> FetchOutcome)
    (monitorId channelId : string) : outcome :=
  awaited (Verbs.delete http transport
             ("/monitoring/" ++ monitorId ++ "/channels/" ++ channelId)%string None).

End MonitoringApi.

Module UsageApi.

Import Api.

Definition get (http : HttpClient) (transport : Z -> FetchOutcome) : outcome :=
  returned (Verbs.get http transport "/usage" None).

(** [value !== 0] *)
Definition is_not_zero (value : jsval) : jsval :=
  match value with
  | Some (JNum 0) => Some (JBool false)
  | _ => Some (JBool true)
  end.

(** [usage.plan.field] *)
Definition plan_field (usage : jsval) (field : string) : completion raised jsval :=
  plan <- member usage "plan" ;; member plan field.

(** The [switch] of [hasFeature]; a name outside the five is the
    [default] case. *)
Definition feature_of (usage : jsval) (feature : string) : completion raised jsval :=
  if (feature =? "pagination")%string then plan_field usage "has_pagination"
  else if (feature =? "integrations")%string then plan_field usage "has_integrations"
  else if (feature =? "api")%string then
    limit <- plan_field usage "api_rate_limit_per_day" ;; Return (is_not_zero limit)
  else if (feature =? "scheduling")%string then
    limit <- plan_field usage "max_scheduled_jobs" ;; Return (is_not_zero limit)
  else if (feature =? "monitoring")%string then
    limit <- plan_field usage "max_monitors" ;; Return (is_not_zero limit)
  else Return (Some (JBool false)).

Definition hasFeature (http : HttpClient) (transport : Z -> FetchOutcome) (feature : string)
  : outcome :=
  let r := get http transport in
  (usage <- fst r ;; feature_of usage feature, snd r).

End UsageApi.


(* ------------------------------------------------------------------ *)
(** ** Vocabulary of the properties, and the inputs of the examples *)
(* ------------------------------------------------------------------ *)

Local Open Scope list_scope.

(** The events of [count] failed attempts from index [attempt] on, each
    followed by the wait the specification prescribes before the retry:
    [min(1000 * 2^attempt, 10000)] milliseconds. *)
Fixpoint retried (call : FetchCall) (attempt : Z) (count : nat) : list event :=
  match count with
  | O => []
  | S more =>
      Fetch attempt call :: Sleep (Z.min (1000 * 2 ^ attempt) 10000)
        :: retried call (attempt + 1) more
  end.

(** The attempt indices of the [fetch] calls of a trace, and its delays. *)
Fixpoint attempts (trace : list event) : list Z :=
  match trace with
  | [] => []
  | Fetch attempt _ :: rest => attempt :: attempts rest
  | Sleep _ :: rest => attempts rest
  end.

Fixpoint delays (trace : list event) : list Z :=
  match trace with
  | [] => []
  | Fetch _ _ :: rest => delays rest
  | Sleep ms :: rest => ms :: delays rest
  end.

(** The two ways an iteration whose attempt threw [error] can go on: the
    error leaves [request] with nothing after the [fetch], or the engine
    sleeps for the backoff delay and runs the next iteration. *)
Definition raises_at_once (this : HttpClient) (transport : Z -> FetchOutcome)
    (call : FetchCall) (attempt : Z) (lastError : option thrown) (error : thrown) : Prop :=
  request_loop this transport call attempt lastError
  = (Throw error, [Fetch attempt call]).

Definition retries_after (this : HttpClient) (transport : Z -> FetchOutcome)
    (call : FetchCall) (attempt : Z) (lastError : option thrown) (error : thrown) : Prop :=
  request_loop this transport call attempt lastError
  = (fst (request_loop this transport call (attempt + 1) (Some error)),
     Fetch attempt call :: Sleep (backoff attempt)
       :: snd (request_loop this transport call (attempt + 1) (Some error))).

(** The attempt at index [attempt] threw an error that the [catch] block
    does not rethrow at once. *)
Definition retried_failure (transport : Z -> FetchOutcome) (call : FetchCall)
    (attempt : Z) : Prop :=
  exists error, attempt_once transport call attempt = Throw error
                /\ is_client_error error = false.

(** The time slept during a run, in milliseconds. *)
Definition total_wait (trace : list event) : Z := fold_right Z.add 0 (delays trace).

(** The value a record holds for a key: the last binding, were the key
    listed twice. *)
Definition last_binding {A} (key : string) (record : list (string * A)) : option A :=
  assoc key (rev record).

(** The three headers [request] starts from. *)
Definition default_headers (this : HttpClient) : Headers :=
  [("Authorization", ("Bearer " ++ apiKey this)%string);
   ("Content-Type", "application/json");
   ("User-Agent", "scrapebit-sdk-node/1.0.0")].

(** The number of occurrences of a character in a string. *)
Fixpoint count_char (c : ascii) (s : string) : nat :=
  match s with
  | EmptyString => O
  | String c' rest => ((if Ascii.eqb c c' then 1 else 0) + count_char c rest)%nat
  end.

(** What the table of error classes allows an error thrown by [request] to
    be: each class goes with its status code, a [ServerError] or a plain
    [ScrapebitError] built from a response carries a status outside 2xx,
    and no [ValidationError] occurs. *)
Definition thrown_by_the_engine (e : ScrapebitError) : Prop :=
  match class e with
  | ValidationErrorC _ => False
  | AuthenticationErrorC => statusCode e = Some 401
  | InsufficientCreditsErrorC _ _ => statusCode e = Some 402
  | AuthorizationErrorC => statusCode e = Some 403
  | NotFoundErrorC => statusCode e = Some 404 /\ message e = "Resource not found"
  | RateLimitErrorC _ => statusCode e = Some 429
  | TimeoutErrorC => statusCode e = Some 408
  | NetworkErrorC => statusCode e = None
  | ServerErrorC => exists s, statusCode e = Some s /\ (s < 200 \/ 299 < s)
  | ScrapebitErrorC =>
      e = ScrapebitError_new "Request failed after retries" None None
      \/ exists s, statusCode e = Some s /\ s < 500 /\ (s < 200 \/ 299 < s)
                   /\ s <> 401 /\ s <> 402 /\ s <> 403 /\ s <> 404 /\ s <> 429
  end.

(** The fields a subclass adds, as the engine fills them: a retry hint is
    absent or a non-zero integer, the credits required are truthy, and the
    credits remaining are truthy or the number 0. *)
Definition fields_filled_by_the_engine (e : ScrapebitError) : Prop :=
  match class e with
  | RateLimitErrorC retryAfter =>
      match retryAfter with
      | Some n => n <> 0 /\ details e = Some [("retryAfter", JNum n)]
      | None => details e = None /\ message e = "Rate limit exceeded."
      end
  | InsufficientCreditsErrorC required remaining =>
      truthy (Some required) = true
      /\ (truthy (Some remaining) = true \/ remaining = JNum 0)
      /\ details e = Some [("creditsRequired", required); ("creditsRemaining", remaining)]
  | _ => True
  end.


(** The calls of the [fetch] events of a trace. *)
Fixpoint calls (trace : list event) : list FetchCall :=
  match trace with
  | [] => []
  | Fetch _ call :: rest => call :: calls rest
  | Sleep _ :: rest => calls rest
  end.

(** Every character of a string satisfies a test. *)
Fixpoint all_chars (test : ascii -> bool) (s : string) : bool :=
  match s with
  | EmptyString => true
  | String c rest => test c && all_chars test rest
  end.

(** What the serializer of [URLSearchParams] can emit for a name or a
    value: an unreserved character, [+] or [%]. *)
Definition emitted (c : ascii) : bool :=
  URLSearchParams.unreserved c || Ascii.eqb c "+" || Ascii.eqb c "%".

(** [if (options?.name)]: the option is there and truthy. *)
Definition given_number (value : option Z) : bool :=
  match value with
  | Some n => negb (n =? 0)
  | None => false
  end.

Definition given_string (value : option string) : bool :=
  match value with
  | Some s => negb (s =? "")%string
  | None => false
  end.

(** How many of the five options of [getUsage] are given. *)
Definition usage_options_given (options : option CreditsApi.UsageOptions) : nat :=
  match options with
  | None => 0%nat
  | Some o =>
      ((if given_number (Api.page (CreditsApi.pagination o)) then 1 else 0)
       + (if given_number (Api.limit (CreditsApi.pagination o)) then 1 else 0)
       + (if given_string (CreditsApi.type o) then 1 else 0)
       + (if given_string (CreditsApi.startDate o) then 1 else 0)
       + (if given_string (CreditsApi.endDate o) then 1 else 0))%nat
  end.

(** [typeof v === 'string'] *)
Definition is_string (v : jsval) : bool :=
  match v with
  | Some (JStr _) => true
  | _ => false
  end.

(** A server that settles every attempt the same way. *)
Definition always (outcome : FetchOutcome) : Z -> FetchOutcome := fun _ => outcome.

(** The engine of [new Scrapebit('sb_live_key')]: 30000 ms, 3 retries. *)
Definition default_client : HttpClient := HttpClient_new "sb_live_key" empty_config.

Definition scrape_call : FetchCall := fetch_call default_client "/scrape" empty_options.

(** A server that refuses the first two connections and then answers 200
    with an envelope. *)
Definition recovering_server : Z -> FetchOutcome :=
  fun attempt =>
    if attempt <? 2 then Rejected "TypeError" "fetch failed"
    else Resolved (mkResponse 200 "OK"
                     (Some (JObj [("success", JBool true); ("data", JNum 7)]))).

(** The timer of [fetchWithTimeout] fired first. *)
Definition timed_out : FetchOutcome := Rejected "AbortError" "This operation was aborted".

Definition connection_refused : FetchOutcome := Rejected "TypeError" "fetch failed".

Definition not_found_page : Response := mkResponse 404 "Not Found" None.

Definition server_error_null : Response := mkResponse 500 "Internal Server Error" (Some JNull).

Definition ok_number : Response := mkResponse 200 "OK" (Some (JNum 42)).

Definition no_content : Response := mkResponse 204 "No Content" None.

Definition payment_required_empty : Response := mkResponse 402 "Payment Required" (Some (JObj [])).

Definition payment_required_null : Response :=
  mkResponse 402 "Payment Required" (Some JNull).

Definition not_found_json : Response :=
  mkResponse 404 "Not Found" (Some (JObj [("error", JStr "no such job")])).

Definition rate_limited : Response :=
  mkResponse 429 "Too Many Requests" (Some (JObj [("retryAfter", JStr "30")])).

Definition bad_gateway_page : Response := mkResponse 502 "Bad Gateway" None.

Definition forbidden_json : Response :=
  mkResponse 403 "Forbidden" (Some (JObj [("error", JStr "plan does not include monitoring")])).

Definition usage_answer : Response :=
  mkResponse 200 "OK"
    (Some (JObj [("credits_remaining", JNum 40);
                 ("plan", JObj [("name", JStr "Starter");
                                ("api_rate_limit_per_day", JNull);
                                ("max_scheduled_jobs", JNum 0)])])).

(** The string ["30"] behind a no-break space (U+00A0, two bytes). *)
Definition nbsp_30 : string :=
  String (ascii_of_nat 194) (String (ascii_of_nat 160) "30").

Definition unavailable : Response :=
  mkResponse 503 "Service Unavailable" (Some (JObj [("error", JStr "overloaded")])).

(* ------------------------------------------------------------------ *)
(** ** The retry loop: one iteration, then whole runs *)
(* ------------------------------------------------------------------ *)

Section Loop.

Variable this : HttpClient.
Variable transport : Z -> FetchOutcome.
Variable call : FetchCall.

Let loop := request_loop this transport call.
Let once := attempt_once transport call.

(** The loop test fails: the statement after the loop throws. *)
Lemma loop_exit attempt lastError :
  retries this < attempt ->
  loop attempt lastError =
    (Throw (match lastError with
            | Some error => error
            | None => ThrownError
                        (ScrapebitError_new "Request failed after retries" None None)
            end), []).
Proof.
  intros Hgt. unfold loop. simp request_loop.
  destruct (Z_le_gt_dec attempt (retries this)); [lia | reflexivity].
Qed.

Lemma loop_return attempt lastError value :
  attempt <= retries this ->
  once attempt = Return value ->
  loop attempt lastError = (Return value, [Fetch attempt call]).
Proof.
  intros Hle Hv. unfold loop, once in *. simp request_loop.
  destruct (Z_le_gt_dec attempt (retries this)); [| lia].
  cbn. rewrite Hv. reflexivity.
Qed.

(** The first [if] of the [catch] block. *)
Lemma loop_client_error attempt lastError error :
  attempt <= retries this ->
  once attempt = Throw error ->
  is_client_error error = true ->
  loop attempt lastError = (Throw error, [Fetch attempt call]).
Proof.
  intros Hle Hv Hc. unfold loop, once in *. simp request_loop.
  destruct (Z_le_gt_dec attempt (retries this)); [| lia].
  cbn. rewrite Hv, Hc. reflexivity.
Qed.

(** The second [if] of the [catch] block. *)
Lemma loop_last_attempt lastError error :
  once (retries this) = Throw error ->
  is_client_error error = false ->
  loop (retries this) lastError = (Throw error, [Fetch (retries this) call]).
Proof.
  intros Hv Hc. unfold loop, once in *. simp request_loop.
  destruct (Z_le_gt_dec (retries this) (retries this)); [| lia].
  cbn. rewrite Hv, Hc, Z.eqb_refl. reflexivity.
Qed.

(** Neither [if] fires: sleep, then the next iteration. *)
Lemma loop_retry attempt lastError error :
  attempt < retries this ->
  once attempt = Throw error ->
  is_client_error error = false ->
  loop attempt lastError =
    (fst (loop (attempt + 1) (Some error)),
     Fetch attempt call :: Sleep (backoff attempt)
       :: snd (loop (attempt + 1) (Some error))).
Proof.
  intros Hlt Hv Hc. unfold loop, once in *.
  rewrite (request_loop_equation_1 this transport call attempt).
  destruct (Z_le_gt_dec attempt (retries this)); [| lia].
  cbn. rewrite Hv, Hc.
  destruct (Z.eqb_spec attempt (retries this)); [lia | reflexivity].
Qed.

(** A run of the loop that starts at an index within the retry budget ends
    at some attempt [final <= retries]: every earlier attempt threw an error
    that the [catch] block let through to the backoff, the trace is those
    attempts with their waits followed by the last [fetch], and the result of
    the run is the completion of the last attempt, which is not an error to
    retry unless the budget is spent. *)
Lemma loop_run : forall (n : nat) attempt lastError,
  Z.to_nat (retries this - attempt) = n ->
  attempt <= retries this ->
  exists count : nat,
    attempt + Z.of_nat count <= retries this
    /\ snd (loop attempt lastError)
       = retried call attempt count ++ [Fetch (attempt + Z.of_nat count) call]
    /\ fst (loop attempt lastError) = once (attempt + Z.of_nat count)
    /\ (forall k, attempt <= k < attempt + Z.of_nat count ->
          exists error, once k = Throw error /\ is_client_error error = false)
    /\ (attempt + Z.of_nat count < retries this ->
          forall error, once (attempt + Z.of_nat count) = Throw error ->
                        is_client_error error = true).
Proof.
  induction n as [| n IH]; intros attempt lastError Hn Hle.
  - (* attempt = retries: the last permitted attempt *)
    assert (attempt = retries this) as -> by lia.
    exists 0%nat. rewrite Z.add_0_r.
    split; [lia |].
    destruct (once (retries this)) as [value | error] eqn:Honce.
    + rewrite (loop_return _ lastError value); auto; try lia.
      repeat split; auto; intros; lia.
    + destruct (is_client_error error) eqn:Hc.
      * rewrite (loop_client_error _ lastError error); auto; try lia.
        repeat split; auto; intros; lia.
      * rewrite (loop_last_attempt lastError error); auto.
        repeat split; auto; intros; lia.
  - destruct (once attempt) as [value | error] eqn:Honce.
    + exists 0%nat. rewrite Z.add_0_r.
      rewrite (loop_return _ lastError value); auto.
      repeat split; auto; try (intros; lia).
      intros _ error He. fold once in He. congruence.
    + destruct (is_client_error error) eqn:Hc.
      * exists 0%nat. rewrite Z.add_0_r.
        rewrite (loop_client_error _ lastError error); auto.
        repeat split; auto; try (intros; lia).
        intros _ error' He. fold once in He. congruence.
      * destruct (IH (attempt + 1) (Some error)) as (count & Hfin & Htr & Hres & Hprev & Hstop);
          [lia | lia |].
        exists (S count).
        rewrite (loop_retry _ lastError error); auto; try lia.
        replace (attempt + Z.of_nat (S count)) with (attempt + 1 + Z.of_nat count) by lia.
        cbn [fst snd]. rewrite Htr, Hres.
        repeat split; auto; try lia.
        intros k Hk. destruct (Z.eq_dec k attempt) as [-> | Hne].
        -- exists error. auto.
        -- apply Hprev. lia.
Qed.

(** When every attempt left throws an error that is retried, the loop
    performs them all and throws the error of the last one. *)
Lemma loop_exhausts attempt lastError :
  attempt <= retries this ->
  (forall k, attempt <= k <= retries this ->
     exists error, once k = Throw error /\ is_client_error error = false) ->
  snd (loop attempt lastError)
    = retried call attempt (Z.to_nat (retries this - attempt)) ++ [Fetch (retries this) call]
  /\ fst (loop attempt lastError) = once (retries this).
Proof.
  intros Hle Hall.
  destruct (loop_run _ attempt lastError eq_refl Hle)
    as (count & Hfin & Htr & Hres & _ & Hstop).
  assert (attempt + Z.of_nat count = retries this) as Hlast.
  { destruct (Z.eq_dec (attempt + Z.of_nat count) (retries this)) as [| Hne]; auto.
    exfalso.
    destruct (Hall (attempt + Z.of_nat count)) as (error & Honce & Hc); [lia |].
    rewrite (Hstop ltac:(lia) error Honce) in Hc. discriminate. }
  rewrite Htr, Hres, <- Hlast.
  replace (attempt + Z.of_nat count - attempt) with (Z.of_nat count) by lia.
  rewrite Nat2Z.id. auto.
Qed.

End Loop.

(* ------------------------------------------------------------------ *)
(** ** Classification of failures *)
(* ------------------------------------------------------------------ *)

Lemma bind_Return_inv {E A B} (m : completion E A) (k : A -> completion E B) b :
  bind m k = Return b -> exists a, m = Return a /\ k a = Return b.
Proof. destruct m as [a | e]; cbn; [eauto | discriminate]. Qed.

Lemma InsufficientCreditsError_new_status required remaining e :
  InsufficientCreditsError_new required remaining = Return e ->
  statusCode e = Some 402 /\ class e = InsufficientCreditsErrorC required remaining.
Proof.
  unfold InsufficientCreditsError_new. intros H.
  apply bind_Return_inv in H as (r1 & _ & H).
  apply bind_Return_inv in H as (r2 & _ & H).
  injection H as <-. auto.
Qed.

(** The error built by [handleErrorResponse] carries the status it was
    called with, and is a [ServerError] exactly from 500 on. *)
Lemma classify_status s data e :
  classify s data = Return e ->
  statusCode e = Some s /\ (class e = ServerErrorC <-> 500 <= s).
Proof.
  unfold classify. intros H.
  apply bind_Return_inv in H as (error & _ & H).
  apply bind_Return_inv in H as (message & _ & H).
  apply bind_Return_inv in H as (code & _ & H).
  destruct (Z.eqb_spec s 401) as [-> | N401].
  { apply bind_Return_inv in H as (msg & _ & H). injection H as <-.
    cbn. split; [reflexivity | split; [discriminate | lia]]. }
  destruct (Z.eqb_spec s 402) as [-> | N402].
  { apply bind_Return_inv in H as (required & _ & H).
    apply bind_Return_inv in H as (remaining & _ & H).
    apply InsufficientCreditsError_new_status in H as [-> ->].
    split; [reflexivity | split; [discriminate | lia]]. }
  destruct (Z.eqb_spec s 403) as [-> | N403].
  { apply bind_Return_inv in H as (msg & _ & H). injection H as <-.
    cbn. split; [reflexivity | split; [discriminate | lia]]. }
  destruct (Z.eqb_spec s 404) as [-> | N404].
  { injection H as <-. cbn. split; [reflexivity | split; [discriminate | lia]]. }
  destruct (Z.eqb_spec s 429) as [-> | N429].
  { apply bind_Return_inv in H as (raw & _ & H).
    apply bind_Return_inv in H as (parsed & _ & H). injection H as <-.
    cbn. split; [reflexivity | split; [discriminate | lia]]. }
  destruct (Z.leb_spec 500 s) as [G | L].
  { apply bind_Return_inv in H as (msg & _ & H). injection H as <-.
    cbn. split; [reflexivity | split; auto]. }
  apply bind_Return_inv in H as (msg & _ & H). injection H as <-.
  cbn. split; [reflexivity | split; [discriminate | lia]].
Qed.

(** An SDK error thrown by [handleResponse] comes from a response that is
    not [ok] and carries its status; it is a [ServerError] when the body
    did not decode or the status is at least 500. *)
Lemma handleResponse_error response e :
  handleResponse response = Throw (ThrownError e) ->
  ok response = false
  /\ statusCode e = Some (status response)
  /\ (class e = ServerErrorC <-> body response = None \/ 500 <= status response).
Proof.
  unfold handleResponse. destruct (body response) as [data |] eqn:Hbody.
  - destruct (ok response); cbn [negb].
    + (* ok: only the [in] tests can throw, and they throw a TypeError *)
      destruct data; cbn; try discriminate.
      destruct (has_key "success" fields); cbn; try discriminate.
      destruct (has_key "data" fields); cbn; discriminate.
    + unfold handleErrorResponse.
      destruct (classify (status response) data) as [e' | t] eqn:Hc; [| discriminate].
      intros H. injection H as <-.
      apply classify_status in Hc as [Hs Hcls].
      repeat split; auto.
      * intros Hsrv. right. apply Hcls, Hsrv.
      * intros [Hnone | Hge]; [discriminate | apply Hcls, Hge].
  - destruct (ok response); cbn [negb]; [discriminate |].
    intros H. injection H as <-. cbn. repeat split; auto.
Qed.

(** What an attempt that threw an SDK error went through. *)
Lemma attempt_once_error transport call attempt e :
  attempt_once transport call attempt = Throw (ThrownError e) ->
  (exists message, transport attempt = Rejected "AbortError" message
                   /\ e = TimeoutError_new (call_timeout call))
  \/ (exists name message, transport attempt = Rejected name message
                           /\ name <> "AbortError"
                           /\ e = NetworkError_new (Some message))
  \/ (exists response, transport attempt = Resolved response
                       /\ handleResponse response = Throw (ThrownError e)).
Proof.
  unfold attempt_once, fetchWithTimeout.
  destruct (transport attempt) as [response | name message]; cbn.
  - intros H. right. right. eauto.
  - destruct (String.eqb_spec name "AbortError") as [-> | Hne]; intros H; injection H as <-.
    + left. eauto.
    + right. left. eauto.
Qed.

Lemma is_client_error_status e s :
  statusCode e = Some s ->
  is_client_error (ThrownError e) = negb (s =? 0) && (s <? 500).
Proof. intros H. cbn. rewrite H. reflexivity. Qed.

Lemma get_prop_not_null data prop :
  data <> JNull -> exists v, get_prop data prop = Return v.
Proof. destruct data; cbn; eauto; congruence. Qed.

Lemma classify_404 data :
  data <> JNull -> classify 404 data = Return (NotFoundError_new "Resource" None).
Proof.
  intros Hnn. unfold classify.
  destruct (get_prop_not_null data "error" Hnn) as (error & ->).
  destruct (get_prop_not_null data "message" Hnn) as (message & ->).
  destruct (get_prop_not_null data "code" Hnn) as (code & ->).
  cbn. destruct (truthy error); reflexivity.
Qed.

(** A response with status 500 makes the attempt throw an error that the
    [catch] block retries, whatever its body. *)
Lemma status_500_is_retried transport call attempt response :
  transport attempt = Resolved response ->
  status response = 500 ->
  exists error, attempt_once transport call attempt = Throw error
                /\ is_client_error error = false.
Proof.
  intros Ht Hs. unfold attempt_once. rewrite Ht. cbn.
  unfold handleResponse, ok. rewrite Hs. cbn.
  destruct (body response) as [data |].
  - unfold handleErrorResponse.
    destruct (classify 500 data) as [e | t] eqn:Hc.
    + eexists; split; [reflexivity |].
      apply classify_status in Hc as [Hst _].
      rewrite (is_client_error_status e 500 Hst). reflexivity.
    + eexists; split; reflexivity.
  - eexists; split; reflexivity.
Qed.

Lemma attempts_retried call attempt count final :
  List.length (attempts (retried call attempt count ++ [Fetch final call])) = S count.
Proof.
  revert attempt. induction count as [| count IH]; intros attempt; cbn; [reflexivity |].
  rewrite IH. reflexivity.
Qed.

(* ------------------------------------------------------------------ *)
(** ** The retry decision *)
(* ------------------------------------------------------------------ *)

(** C1, as amended: a Timeout failure carries the synthetic status 408, so
    the engine raises it at once, without waiting or trying again, whether
    or not attempts remain.  The failures that are retried while the attempt
    index is below the retry count are Network failures, which carry no
    status, and errors whose status is 500 or more. *)
Theorem timeout_raised_at_once_network_and_5xx_retried
    this transport call attempt lastError :
  attempt <= retries this ->
  (forall message,
      transport attempt = Rejected "AbortError" message ->
      statusCode (TimeoutError_new (call_timeout call)) = Some 408
      /\ raises_at_once this transport call attempt lastError
           (ThrownError (TimeoutError_new (call_timeout call))))
  /\ (forall name message,
        attempt < retries this ->
        name <> "AbortError" ->
        transport attempt = Rejected name message ->
        retries_after this transport call attempt lastError
          (ThrownError (NetworkError_new (Some message))))
  /\ (forall e s,
        attempt < retries this ->
        attempt_once transport call attempt = Throw (ThrownError e) ->
        statusCode e = Some s ->
        500 <= s ->
        retries_after this transport call attempt lastError (ThrownError e)).
Proof.
  intros Hle. repeat split.
  - apply loop_client_error; auto.
    unfold attempt_once. rewrite H. reflexivity.
  - intros name message Hlt Hne Ht.
    apply loop_retry; auto.
    unfold attempt_once. rewrite Ht. cbn.
    apply String.eqb_neq in Hne. rewrite Hne. reflexivity.
  - intros e s Hlt Honce Hst Hge.
    apply loop_retry; auto.
    rewrite (is_client_error_status e s Hst).
    destruct (Z.ltb_spec s 500); [lia |]. apply andb_false_r.
Qed.

(** At the default engine (3 retries) and on the first attempt: a timeout
    is raised at once, a refused connection and a 503 are retried. *)
Lemma timeout_raised_at_once_network_and_5xx_retried_witness :
  0 <= retries default_client
  /\ raises_at_once default_client (always timed_out) scrape_call 0 None
       (ThrownError (TimeoutError_new 30000))
  /\ retries_after default_client (always connection_refused) scrape_call 0 None
       (ThrownError (NetworkError_new (Some "fetch failed")))
  /\ retries_after default_client (always (Resolved unavailable)) scrape_call 0 None
       (ThrownError (ServerError_new 503 (Some "overloaded"))).
Proof.
  assert (0 <= retries default_client) as H0 by (cbn; lia).
  assert (0 < retries default_client) as H1 by (cbn; lia).
  split; [exact H0 |]. split; [| split].
  - exact (proj2 (proj1 (timeout_raised_at_once_network_and_5xx_retried
                          default_client (always timed_out) scrape_call 0 None H0)
                        "This operation was aborted" eq_refl)).
  - apply (proj1 (proj2 (timeout_raised_at_once_network_and_5xx_retried
                           default_client (always connection_refused) scrape_call 0 None H0))
             "TypeError" "fetch failed" H1).
    + discriminate.
    + reflexivity.
  - apply (proj2 (proj2 (timeout_raised_at_once_network_and_5xx_retried
                           default_client (always (Resolved unavailable)) scrape_call 0 None H0))
             (ServerError_new 503 (Some "overloaded")) 503 H1).
    + reflexivity.
    + reflexivity.
    + lia.
Defined.

(** C1 as stated fails: with three retries left, a first attempt that times
    out is the only attempt, and the Timeout is what [request] throws. *)
Lemma timeout_with_retries_left_is_not_retried :
  0 < retries default_client
  /\ always timed_out 0 = Rejected "AbortError" "This operation was aborted"
  /\ request default_client (always timed_out) "/scrape" empty_options
     = (Throw (ThrownError (TimeoutError_new 30000)), [Fetch 0 scrape_call]).
Proof. repeat split. Qed.

(* ------------------------------------------------------------------ *)
(** ** The retry bound *)
(* ------------------------------------------------------------------ *)

(** Against a server that answers every attempt with status 500, [request]
    performs the attempts [0 .. retries], with the backoff waits between
    them, and throws what the last attempt threw: a [ServerError] carrying
    500, unless classifying the last body threw a [TypeError]. *)
Lemma retry_bound_status_500 this transport endpoint options :
  0 <= retries this ->
  (forall k, exists response, transport k = Resolved response /\ status response = 500) ->
  snd (request this transport endpoint options)
    = retried (fetch_call this endpoint options) 0 (Z.to_nat (retries this))
        ++ [Fetch (retries this) (fetch_call this endpoint options)]
  /\ List.length (attempts (snd (request this transport endpoint options)))
     = Z.to_nat (retries this + 1)
  /\ ((exists e, fst (request this transport endpoint options) = Throw (ThrownError e)
                 /\ class e = ServerErrorC /\ statusCode e = Some 500)
      \/ (exists t, fst (request this transport endpoint options) = Throw (ThrownTypeError t))).
Proof.
  intros Hpos Hsrv. unfold request.
  set (call := fetch_call this endpoint options).
  destruct (loop_exhausts this transport call 0 None Hpos) as [Htr Hres].
  { intros k _. destruct (Hsrv k) as (response & Ht & Hs).
    eapply status_500_is_retried; eauto. }
  rewrite Z.sub_0_r in Htr. rewrite Htr, Hres, attempts_retried.
  split; [reflexivity |]. split; [lia |].
  destruct (Hsrv (retries this)) as (response & Ht & Hs).
  destruct (attempt_once transport call (retries this)) as [v | [e | t]] eqn:Honce.
  - destruct (status_500_is_retried transport call _ response Ht Hs) as (error & He & _).
    congruence.
  - left. exists e. split; [reflexivity |].
    apply attempt_once_error in Honce
      as [(m & Hr & _) | [(n & m & Hr & _) | (r & Hr & Hh)]]; try congruence.
    assert (r = response) as -> by congruence.
    apply handleResponse_error in Hh as (_ & Hst & Hcls).
    rewrite Hs in *. split; [| exact Hst]. apply Hcls. right. lia.
  - right. eauto.
Qed.

(** The last error is a [ServerError] when the last body does not decode,
    or decodes to an object whose [error] field is a non-empty string. *)
Lemma status_500_raises_ServerError this transport endpoint options response :
  0 <= retries this ->
  (forall k, exists r, transport k = Resolved r /\ status r = 500) ->
  transport (retries this) = Resolved response ->
  (body response = None ->
     fst (request this transport endpoint options)
     = Throw (ThrownError (ServerError_new 500
                (Some ("HTTP 500: " ++ statusText response)%string))))
  /\ (forall fields text,
        body response = Some (JObj fields) ->
        assoc "error" fields = Some (JStr text) -> text <> "" ->
        fst (request this transport endpoint options)
        = Throw (ThrownError (ServerError_new 500 (Some text)))).
Proof.
  intros Hpos Hsrv Hlast. unfold request.
  set (call := fetch_call this endpoint options).
  destruct (loop_exhausts this transport call 0 None Hpos) as [_ Hres].
  { intros k _. destruct (Hsrv k) as (r & Ht & Hs).
    eapply status_500_is_retried; eauto. }
  rewrite Hres. unfold attempt_once. rewrite Hlast. cbn.
  destruct (Hsrv (retries this)) as (r & Ht & Hs).
  assert (r = response) as -> by congruence.
  unfold handleResponse, ok. rewrite Hs. cbn. split.
  - intros ->. reflexivity.
  - intros fields text -> Herr Hne.
    unfold handleErrorResponse, classify. cbn. rewrite Herr. cbn.
    apply String.eqb_neq in Hne. rewrite Hne. reflexivity.
Qed.

(** A failure response whose body is the JSON value [null] is not
    classified: reading [data.error] throws before the [switch]. *)
Lemma null_error_body_throws_TypeError response :
  ok response = false ->
  body response = Some JNull ->
  handleResponse response = Throw (ThrownTypeError (ReadPropertyOfNull "error")).
Proof. intros Hok Hb. unfold handleResponse. rewrite Hb, Hok. reflexivity. Qed.

(** C2 on a body the engine mishandles: every attempt is answered with
    status 500 and the JSON body [null].  The four attempts are made, and
    what [request] throws is the [TypeError] of reading [data.error], not a
    [ServerError]. *)
Lemma server_error_with_null_body_raises_TypeError :
  fst (request default_client (always (Resolved server_error_null)) "/scrape" empty_options)
  = Throw (ThrownTypeError (ReadPropertyOfNull "error"))
  /\ attempts (snd (request default_client (always (Resolved server_error_null))
                      "/scrape" empty_options))
     = [0; 1; 2; 3].
Proof. split; reflexivity. Qed.

(* ------------------------------------------------------------------ *)
(** ** Client errors are final *)
(* ------------------------------------------------------------------ *)

(** C3, as amended: an attempt whose error carries a status in [400,500)
    ends [request] at once with that error: nothing follows the [fetch].
    A 404 whose body decodes to a JSON value other than [null] is raised as
    NotFound; a 404 whose body does not decode is raised, as immediately,
    as the Server error that carries 404 and the status text. *)
Theorem client_error_is_raised_without_retry
    this transport call attempt lastError :
  attempt <= retries this ->
  (forall e s,
      attempt_once transport call attempt = Throw (ThrownError e) ->
      statusCode e = Some s ->
      400 <= s < 500 ->
      raises_at_once this transport call attempt lastError (ThrownError e))
  /\ (forall text data,
        transport attempt = Resolved (mkResponse 404 text (Some data)) ->
        data <> JNull ->
        raises_at_once this transport call attempt lastError
          (ThrownError (NotFoundError_new "Resource" None)))
  /\ (forall text,
        transport attempt = Resolved (mkResponse 404 text None) ->
        raises_at_once this transport call attempt lastError
          (ThrownError (ServerError_new 404 (Some ("HTTP 404: " ++ text)%string)))).
Proof.
  intros Hle. split; [| split].
  - intros e s Honce Hst Hs.
    apply loop_client_error; auto.
    rewrite (is_client_error_status e s Hst).
    destruct (Z.eqb_spec s 0); [lia |]. destruct (Z.ltb_spec s 500); [reflexivity | lia].
  - intros text data Ht Hnn.
    apply loop_client_error; auto.
    unfold attempt_once. rewrite Ht. cbn.
    unfold handleResponse. cbn. unfold handleErrorResponse.
    rewrite (classify_404 data Hnn). reflexivity.
  - intros text Ht.
    apply loop_client_error; auto.
    unfold attempt_once. rewrite Ht. reflexivity.
Qed.

(** On the first attempt of the default engine: a 429 with a retry hint,
    the spec's 404 with a JSON body, and a 404 that is an HTML page. *)
Lemma client_error_is_raised_without_retry_witness :
  0 <= retries default_client
  /\ raises_at_once default_client (always (Resolved rate_limited)) scrape_call 0 None
       (ThrownError (RateLimitError_new (Some 30)))
  /\ request default_client (always (Resolved not_found_json)) "/scrape" empty_options
     = (Throw (ThrownError (NotFoundError_new "Resource" None)), [Fetch 0 scrape_call])
  /\ raises_at_once default_client (always (Resolved not_found_page)) scrape_call 0 None
       (ThrownError (ServerError_new 404 (Some "HTTP 404: Not Found"))).
Proof.
  assert (0 <= retries default_client) as H0 by (cbn; lia).
  split; [exact H0 |]. split; [| split].
  - apply (proj1 (client_error_is_raised_without_retry default_client
                    (always (Resolved rate_limited)) scrape_call 0 None H0)
             (RateLimitError_new (Some 30)) 429).
    + reflexivity.
    + reflexivity.
    + lia.
  - apply (proj1 (proj2 (client_error_is_raised_without_retry default_client
                           (always (Resolved not_found_json)) scrape_call 0 None H0))
             "Not Found" (JObj [("error", JStr "no such job")])).
    + reflexivity.
    + discriminate.
  - exact (proj2 (proj2 (client_error_is_raised_without_retry default_client
                           (always (Resolved not_found_page)) scrape_call 0 None H0))
             "Not Found" eq_refl).
Defined.

(** C3 as stated fails: a 404 whose body is not JSON (an HTML error page)
    is raised after one attempt, but as a [ServerError], not as NotFound. *)
Lemma not_found_without_json_body_raises_ServerError :
  request default_client (always (Resolved not_found_page)) "/scrape" empty_options
  = (Throw (ThrownError (ServerError_new 404 (Some "HTTP 404: Not Found"))),
     [Fetch 0 scrape_call])
  /\ class (ServerError_new 404 (Some "HTTP 404: Not Found")) = ServerErrorC
  /\ class (NotFoundError_new "Resource" None) = NotFoundErrorC.
Proof. repeat split. Qed.

(* ------------------------------------------------------------------ *)
(** ** Backoff *)
(* ------------------------------------------------------------------ *)

Lemma backoff_capped k : 4 <= k -> backoff k = 10000.
Proof.
  intros Hk. unfold backoff.
  assert (2 ^ 4 <= 2 ^ k) by (apply Z.pow_le_mono_r; lia).
  change (2 ^ 4) with 16 in *. lia.
Qed.

(** C4: the trace of a request is empty (a negative retry count: no attempt
    at all) or consists of the attempts [0 .. count], the first one preceded
    by nothing and each later one preceded by a wait of
    [min(1000 * 2^attempt, 10000)] ms, [attempt] being the index of the
    attempt that just failed; there is no other wait.  The delays are 1000,
    2000, 4000 and 8000 ms after the attempts 0 to 3 and 10000 ms after
    every later one. *)
Theorem backoff_before_each_retry this transport endpoint options :
  ((retries this < 0 /\ snd (request this transport endpoint options) = [])
   \/ (exists count : nat,
         Z.of_nat count <= retries this
         /\ snd (request this transport endpoint options)
            = retried (fetch_call this endpoint options) 0 count
                ++ [Fetch (Z.of_nat count) (fetch_call this endpoint options)]))
  /\ backoff 0 = 1000 /\ backoff 1 = 2000 /\ backoff 2 = 4000 /\ backoff 3 = 8000
  /\ (forall attempt, 4 <= attempt -> backoff attempt = 10000).
Proof.
  split; [| repeat split; try reflexivity; apply backoff_capped].
  unfold request. set (call := fetch_call this endpoint options).
  destruct (Z_lt_le_dec (retries this) 0) as [Hneg | Hpos].
  - left. split; [exact Hneg |].
    rewrite (loop_exit this transport call 0 None); [reflexivity | lia].
  - right.
    destruct (loop_run this transport call _ 0 None eq_refl Hpos)
      as (count & Hfin & Htr & _).
    exists count. split; [lia |]. exact Htr.
Qed.

(** The spec's measurement: four retries against a server that is down give
    the waits 1000, 2000, 4000 and 8000 ms; with six retries the last two
    waits are capped. *)
Lemma backoff_delays_example :
  delays (snd (request (HttpClient_new "sb_live_key" (mkConfig None None (Some 4) None))
                 (always (Resolved unavailable)) "/scrape" empty_options))
  = [1000; 2000; 4000; 8000]
  /\ delays (snd (request (HttpClient_new "sb_live_key" (mkConfig None None (Some 6) None))
                    (always connection_refused) "/scrape" empty_options))
     = [1000; 2000; 4000; 8000; 10000; 10000].
Proof. split; reflexivity. Qed.

(* ------------------------------------------------------------------ *)
(** ** The status carried by a Server error *)
(* ------------------------------------------------------------------ *)

(** What [request] throws is the generic error after the loop or the
    completion of one of its attempts. *)
Lemma request_result_origin this transport endpoint options :
  (retries this < 0
   /\ fst (request this transport endpoint options)
      = Throw (ThrownError (ScrapebitError_new "Request failed after retries" None None)))
  \/ (exists attempt,
        0 <= attempt <= retries this
        /\ fst (request this transport endpoint options)
           = attempt_once transport (fetch_call this endpoint options) attempt).
Proof.
  unfold request. set (call := fetch_call this endpoint options).
  destruct (Z_lt_le_dec (retries this) 0) as [Hneg | Hpos].
  - left. split; [exact Hneg |].
    rewrite (loop_exit this transport call 0 None); [reflexivity | lia].
  - right.
    destruct (loop_run this transport call _ 0 None eq_refl Hpos)
      as (count & Hfin & _ & Hres & _).
    exists (0 + Z.of_nat count). split; [lia | exact Hres].
Qed.

(** C5, as amended: a Server error thrown by [request] was built from the
    response of one of its attempts, a response that is not [ok], and it
    carries the status of that response.  The status is 500 or more when
    the body of the response decoded; when the body did not decode it is
    whatever failure status the response had. *)
Theorem ServerError_carries_the_response_status this transport endpoint options e :
  fst (request this transport endpoint options) = Throw (ThrownError e) ->
  class e = ServerErrorC ->
  exists attempt response,
    0 <= attempt <= retries this
    /\ transport attempt = Resolved response
    /\ ok response = false
    /\ statusCode e = Some (status response)
    /\ (body response = None \/ 500 <= status response).
Proof.
  intros Hres Hcls.
  destruct (request_result_origin this transport endpoint options)
    as [[_ Hgen] | (attempt & Hrange & Honce)].
  - rewrite Hgen in Hres. injection Hres as <-. discriminate.
  - rewrite Honce in Hres.
    apply attempt_once_error in Hres
      as [(m & _ & ->) | [(n & m & _ & _ & ->) | (response & Ht & Hh)]];
      try discriminate.
    apply handleResponse_error in Hh as (Hok & Hst & Hiff).
    exists attempt, response. repeat split; auto; try lia.
    apply Hiff, Hcls.
Qed.

(** A server that is down answers 503 with a JSON body. *)
Lemma ServerError_carries_the_response_status_witness :
  exists attempt response,
    0 <= attempt <= retries default_client
    /\ always (Resolved unavailable) attempt = Resolved response
    /\ ok response = false
    /\ statusCode (ServerError_new 503 (Some "overloaded")) = Some (status response)
    /\ (body response = None \/ 500 <= status response).
Proof.
  apply (ServerError_carries_the_response_status default_client
           (always (Resolved unavailable)) "/scrape" empty_options
           (ServerError_new 503 (Some "overloaded"))); reflexivity.
Defined.

(** C5 as stated fails: a 403 whose body is not JSON is raised as a
    [ServerError] that carries 403. *)
Lemma ServerError_can_carry_a_4xx_status :
  fst (request default_client (always (Resolved (mkResponse 403 "Forbidden" None)))
         "/credits" empty_options)
  = Throw (ThrownError (ServerError_new 403 (Some "HTTP 403: Forbidden")))
  /\ class (ServerError_new 403 (Some "HTTP 403: Forbidden")) = ServerErrorC
  /\ statusCode (ServerError_new 403 (Some "HTTP 403: Forbidden")) = Some 403
  /\ 403 < 500.
Proof. repeat split. Qed.

(* ------------------------------------------------------------------ *)
(** ** Decoded bodies of successful responses *)
(* ------------------------------------------------------------------ *)

(** On a 2xx response whose body decodes to an object, the attempt ends
    [request]: with the [data] field when the object has the keys [success]
    and [data], with the object otherwise.  An array is returned as it is. *)
Lemma envelope_is_unwrapped this transport call attempt lastError response :
  attempt <= retries this ->
  transport attempt = Resolved response ->
  ok response = true ->
  (forall fields,
      body response = Some (JObj fields) ->
      request_loop this transport call attempt lastError
      = (Return (if has_key "success" fields && has_key "data" fields
                 then assoc "data" fields
                 else Some (JObj fields)),
         [Fetch attempt call]))
  /\ (forall items,
        body response = Some (JArr items) ->
        request_loop this transport call attempt lastError
        = (Return (Some (JArr items)), [Fetch attempt call])).
Proof.
  intros Hle Ht Hok. split.
  - intros fields Hb. apply loop_return; auto.
    unfold attempt_once. rewrite Ht. cbn.
    unfold handleResponse. rewrite Hb, Hok. cbn.
    destruct (has_key "success" fields); cbn; [| reflexivity].
    destruct (has_key "data" fields); reflexivity.
  - intros items Hb. apply loop_return; auto.
    unfold attempt_once. rewrite Ht. cbn.
    unfold handleResponse. rewrite Hb, Hok. reflexivity.
Qed.

(** The spec's two examples: [{success: true, data: {x: 1}}] and [{x: 1}]. *)
Lemma envelope_examples :
  fst (request default_client
         (always (Resolved (mkResponse 200 "OK"
            (Some (JObj [("success", JBool true); ("data", JObj [("x", JNum 1)])])))))
         "/scrape" empty_options)
  = Return (Some (JObj [("x", JNum 1)]))
  /\ fst (request default_client
            (always (Resolved (mkResponse 200 "OK" (Some (JObj [("x", JNum 1)])))))
            "/scrape" empty_options)
     = Return (Some (JObj [("x", JNum 1)])).
Proof. split; reflexivity. Qed.

(** A 2xx response whose body decodes to [null], a boolean, a number or a
    string makes the [in] test throw. *)
Lemma primitive_body_throws_TypeError response data :
  ok response = true ->
  body response = Some data ->
  match data with JObj _ | JArr _ => False | _ => True end ->
  handleResponse response = Throw (ThrownTypeError (InOperandNotObject "success")).
Proof.
  intros Hok Hb Hprim. unfold handleResponse. rewrite Hb, Hok.
  destruct data; try reflexivity; contradiction.
Qed.

(** C6 on a body the engine mishandles: a 200 whose body is the JSON number
    [42].  The [in] test throws a [TypeError]; it is not an SDK error, so the
    request is sent again until the budget is spent, and the [TypeError] is
    what [request] throws. *)
Lemma primitive_body_is_not_passed_through :
  fst (request default_client (always (Resolved ok_number)) "/credits" empty_options)
  = Throw (ThrownTypeError (InOperandNotObject "success"))
  /\ attempts (snd (request default_client (always (Resolved ok_number))
                      "/credits" empty_options))
     = [0; 1; 2; 3].
Proof. split; reflexivity. Qed.

(* ------------------------------------------------------------------ *)
(** ** Bodies that do not decode *)
(* ------------------------------------------------------------------ *)

(** C7: when the body of the response of an attempt does not decode, a 2xx
    status makes [request] return the empty object after that attempt, and
    any other status makes the attempt throw the Server error built from the
    status and the status text.  That error then goes through the retry
    decision like any other: it leaves [request] at once when its status is
    below 500 or the attempt is the last one, and is retried otherwise. *)
Theorem undecodable_body_is_empty_object_or_ServerError
    this transport call attempt lastError response :
  attempt <= retries this ->
  transport attempt = Resolved response ->
  body response = None ->
  (ok response = true ->
     request_loop this transport call attempt lastError
     = (Return (Some (JObj [])), [Fetch attempt call]))
  /\ (ok response = false ->
        attempt_once transport call attempt
        = Throw (ThrownError
                   (ServerError_new (status response)
                      (Some ("HTTP " ++ string_of_Z (status response) ++ ": "
                               ++ statusText response)%string)))
        /\ (status response <> 0 /\ status response < 500 \/ attempt = retries this ->
              raises_at_once this transport call attempt lastError
                (ThrownError
                   (ServerError_new (status response)
                      (Some ("HTTP " ++ string_of_Z (status response) ++ ": "
                               ++ statusText response)%string))))
        /\ (attempt < retries this ->
              status response = 0 \/ 500 <= status response ->
              retries_after this transport call attempt lastError
                (ThrownError
                   (ServerError_new (status response)
                      (Some ("HTTP " ++ string_of_Z (status response) ++ ": "
                               ++ statusText response)%string))))).
Proof.
  intros Hle Ht Hb.
  assert (forall b, ok response = b ->
            attempt_once transport call attempt
            = if b then Return (Some (JObj []))
              else Throw (ThrownError
                     (ServerError_new (status response)
                        (Some ("HTTP " ++ string_of_Z (status response) ++ ": "
                                 ++ statusText response)%string)))) as Honce.
  { intros b Hok. unfold attempt_once. rewrite Ht. cbn.
    unfold handleResponse. rewrite Hb, Hok. destruct b; reflexivity. }
  split.
  - intros Hok. apply loop_return; auto. apply (Honce true Hok).
  - intros Hok. specialize (Honce false Hok). cbn in Honce.
    split; [exact Honce |]. split.
    + intros [[Hnz Hlt] | ->].
      * apply loop_client_error; auto. cbn.
        destruct (Z.eqb_spec (status response) 0); [lia |].
        destruct (Z.ltb_spec (status response) 500); [reflexivity | lia].
      * destruct (is_client_error
                    (ThrownError
                       (ServerError_new (status response)
                          (Some ("HTTP " ++ string_of_Z (status response) ++ ": "
                                   ++ statusText response)%string)))) eqn:Hc.
        -- apply loop_client_error; auto.
        -- apply loop_last_attempt; auto.
    + intros Hlt Hs. apply loop_retry; auto. cbn.
      destruct Hs as [-> | Hge]; [reflexivity |].
      destruct (Z.ltb_spec (status response) 500); [lia |]. apply andb_false_r.
Qed.

(** The spec's example, a 204 with an empty body, and a 502 whose body is
    an HTML page, both on the first attempt of the default engine. *)
Lemma undecodable_body_is_empty_object_or_ServerError_witness :
  0 <= retries default_client
  /\ body no_content = None
  /\ request default_client (always (Resolved no_content)) "/scrape" empty_options
     = (Return (Some (JObj [])), [Fetch 0 scrape_call])
  /\ body bad_gateway_page = None
  /\ attempt_once (always (Resolved bad_gateway_page)) scrape_call 0
     = Throw (ThrownError (ServerError_new 502 (Some "HTTP 502: Bad Gateway"))).
Proof.
  assert (0 <= retries default_client) as H0 by (cbn; lia).
  split; [exact H0 |]. split; [reflexivity |]. split; [| split; [reflexivity |]].
  - exact (proj1 (undecodable_body_is_empty_object_or_ServerError default_client
                    (always (Resolved no_content)) scrape_call 0 None no_content
                    H0 eq_refl eq_refl)
                 eq_refl).
  - exact (proj1 (proj2 (undecodable_body_is_empty_object_or_ServerError default_client
                           (always (Resolved bad_gateway_page)) scrape_call 0 None
                           bad_gateway_page H0 eq_refl eq_refl)
                        eq_refl)).
Defined.

(* ------------------------------------------------------------------ *)
(** ** Insufficient credits *)
(* ------------------------------------------------------------------ *)

(** A 402 whose decoded body is not [null] and has neither a
    [creditsRequired] nor a [creditsRemaining] field (reading either yields
    [undefined]) ends [request] at that attempt with the InsufficientCredits
    error whose [creditsRequired] is 1 and whose [creditsRemaining] is 0:
    the error is built, with status 402 and both numbers in its message and
    details. *)
Lemma missing_credit_fields_default_to_1_and_0
    this transport call attempt lastError text data :
  attempt <= retries this ->
  transport attempt = Resolved (mkResponse 402 text (Some data)) ->
  get_prop data "creditsRequired" = Return undefined ->
  get_prop data "creditsRemaining" = Return undefined ->
  raises_at_once this transport call attempt lastError
    (ThrownError
       (mkScrapebitError (InsufficientCreditsErrorC (JNum 1) (JNum 0))
          "Insufficient credits. Required: 1, Remaining: 0"
          (JStr "INSUFFICIENT_CREDITS") (Some 402)
          (Some [("creditsRequired", JNum 1); ("creditsRemaining", JNum 0)]))).
Proof.
  intros Hle Ht Hreq Hrem.
  assert (data <> JNull) as Hnn by (intros ->; discriminate).
  apply loop_client_error; auto.
  unfold attempt_once. rewrite Ht. cbn.
  unfold handleResponse. cbn. unfold handleErrorResponse, classify.
  destruct (get_prop_not_null data "error" Hnn) as (error & ->).
  destruct (get_prop_not_null data "message" Hnn) as (message & ->).
  destruct (get_prop_not_null data "code" Hnn) as (code & ->).
  rewrite Hreq, Hrem. cbn. destruct (truthy error); reflexivity.
Qed.

(** The spec's example: a 402 with the body [{}]. *)
Lemma missing_credit_fields_default_to_1_and_0_witness :
  0 <= retries default_client
  /\ get_prop (JObj []) "creditsRequired" = Return undefined
  /\ get_prop (JObj []) "creditsRemaining" = Return undefined
  /\ raises_at_once default_client (always (Resolved payment_required_empty)) scrape_call 0 None
       (ThrownError
          (mkScrapebitError (InsufficientCreditsErrorC (JNum 1) (JNum 0))
             "Insufficient credits. Required: 1, Remaining: 0"
             (JStr "INSUFFICIENT_CREDITS") (Some 402)
             (Some [("creditsRequired", JNum 1); ("creditsRemaining", JNum 0)]))).
Proof.
  assert (0 <= retries default_client) as H0 by (cbn; lia).
  split; [exact H0 |]. split; [reflexivity |]. split; [reflexivity |].
  exact (missing_credit_fields_default_to_1_and_0 default_client
           (always (Resolved payment_required_empty)) scrape_call 0 None
           "Payment Required" (JObj []) H0 eq_refl eq_refl eq_refl).
Defined.

(** C8 on a body the engine mishandles: a 402 whose body is the JSON value
    [null], which has no credit fields.  Reading [data.error] throws a
    [TypeError] before the [switch] reaches [case 402]; the request is sent
    four times and the [TypeError] is what [request] throws, not the
    InsufficientCredits error with 1 and 0. *)
Lemma payment_required_with_null_body_raises_TypeError :
  fst (request default_client (always (Resolved payment_required_null)) "/scrape" empty_options)
  = Throw (ThrownTypeError (ReadPropertyOfNull "error"))
  /\ attempts (snd (request default_client (always (Resolved payment_required_null))
                      "/scrape" empty_options))
     = [0; 1; 2; 3].
Proof. split; reflexivity. Qed.

(* ------------------------------------------------------------------ *)
(** ** Construction *)
(* ------------------------------------------------------------------ *)

(** C9, as amended: a falsy key (the empty string, but also [undefined],
    [null], [0] or [false]) is refused with the Validation error "API key is
    required", and a truthy key that is not a string with "API key must be a
    string".  In both cases nothing is written and no engine is created: a
    client, and its engine, exist only for a non-empty string key. *)
Theorem construction_validates_the_key apiKey config :
  (apiKey = Some (JStr "") ->
     Scrapebit_new apiKey config
     = (Throw (ValidationError_new "API key is required" None), []))
  /\ (truthy apiKey = false ->
        Scrapebit_new apiKey config
        = (Throw (ValidationError_new "API key is required" None), []))
  /\ (truthy apiKey = true -> is_string apiKey = false ->
        Scrapebit_new apiKey config
        = (Throw (ValidationError_new "API key must be a string" None), []))
  /\ (forall client warnings,
        Scrapebit_new apiKey config = (Return client, warnings) ->
        exists key, apiKey = Some (JStr key) /\ key <> ""
                    /\ http client = HttpClient_new key config).
Proof.
  repeat split.
  - intros ->. reflexivity.
  - intros Hf. unfold Scrapebit_new. rewrite Hf. reflexivity.
  - intros Ht Hs. unfold Scrapebit_new. rewrite Ht. cbn.
    destruct apiKey as [[| | | | |] |]; try reflexivity; discriminate.
  - intros client warnings. unfold Scrapebit_new.
    destruct (truthy apiKey) eqn:Ht; cbn; [| discriminate].
    destruct apiKey as [[| | | key | |] |]; try discriminate.
    intros H. injection H as <- _.
    exists key. repeat split.
    intros ->. discriminate.
Qed.

(** C9 as stated fails: [null], [0], [false] and [undefined] are not
    strings, and the message they get is "API key is required". *)
Lemma falsy_non_string_key_is_reported_as_missing :
  is_string (Some JNull) = false
  /\ Scrapebit_new (Some JNull) empty_config
     = (Throw (ValidationError_new "API key is required" None), [])
  /\ Scrapebit_new (Some (JNum 0)) empty_config
     = (Throw (ValidationError_new "API key is required" None), [])
  /\ Scrapebit_new (Some (JBool false)) empty_config
     = (Throw (ValidationError_new "API key is required" None), [])
  /\ Scrapebit_new undefined empty_config
     = (Throw (ValidationError_new "API key is required" None), [])
  /\ message (ValidationError_new "API key is required" None)
     <> message (ValidationError_new "API key must be a string" None).
Proof. repeat split. discriminate. Qed.

(* ------------------------------------------------------------------ *)
(** ** Configuration *)
(* ------------------------------------------------------------------ *)

(** C10: a configured timeout or retry count of [0], like an absent one,
    gives the engine the defaults 30000 ms and 3 retries, and a per-call
    timeout of [0] gives the call the engine's timeout; so no engine has a
    zero timeout or zero retries, and no call is made with a zero timeout. *)
Theorem zero_falls_back_to_the_default apiKey config this endpoint options :
  (cfg_timeout config = Some 0 -> timeout (HttpClient_new apiKey config) = 30000)
  /\ (cfg_retries config = Some 0 -> retries (HttpClient_new apiKey config) = 3)
  /\ (cfg_timeout config = None -> timeout (HttpClient_new apiKey config) = 30000)
  /\ (cfg_retries config = None -> retries (HttpClient_new apiKey config) = 3)
  /\ (opt_timeout options = Some 0 ->
        call_timeout (fetch_call this endpoint options) = timeout this)
  /\ timeout (HttpClient_new apiKey config) <> 0
  /\ retries (HttpClient_new apiKey config) <> 0
  /\ call_timeout (fetch_call (HttpClient_new apiKey config) endpoint options) <> 0.
Proof.
  assert (forall n d, d <> 0 -> num_or n d <> 0) as Hnz.
  { intros [v |] d Hd; cbn; auto. destruct (Z.eqb_spec v 0); auto. }
  repeat split; cbn.
  - intros ->. reflexivity.
  - intros ->. reflexivity.
  - intros ->. reflexivity.
  - intros ->. reflexivity.
  - intros ->. reflexivity.
  - apply Hnz. lia.
  - apply Hnz. lia.
  - apply Hnz, Hnz. lia.
Qed.

(** An engine configured with [retries: 0] and [timeout: 0] still makes
    four attempts, each with a 30000 ms timer. *)
Lemma zero_retries_configuration_example :
  snd (request (HttpClient_new "sb_live_key" (mkConfig None (Some 0) (Some 0) None))
         (always connection_refused) "/scrape" empty_options)
  = retried scrape_call 0 3 ++ [Fetch 3 scrape_call]
  /\ call_timeout scrape_call = 30000.
Proof. split; reflexivity. Qed.

(* ------------------------------------------------------------------ *)
(** ** Runs of the loop against any server *)
(* ------------------------------------------------------------------ *)

Section Runs.

Variable this : HttpClient.
Variable transport : Z -> FetchOutcome.
Variable call : FetchCall.

(** Within the budget, what the previous iteration threw plays no part. *)
Lemma loop_ignores_lastError attempt last other :
  attempt <= retries this ->
  request_loop this transport call attempt last
  = request_loop this transport call attempt other.
Proof.
  intros Hle.
  destruct (attempt_once transport call attempt) as [value | error] eqn:Honce.
  - rewrite !(loop_return this transport call attempt _ value); auto.
  - destruct (is_client_error error) eqn:Hc.
    + rewrite !(loop_client_error this transport call attempt _ error); auto.
    + destruct (Z.eq_dec attempt (retries this)) as [-> | Hne].
      * rewrite !(loop_last_attempt this transport call _ error); auto.
      * rewrite !(loop_retry this transport call attempt _ error); auto; lia.
Qed.

(** [count] retried failures in a row are [count] iterations. *)
Lemma loop_skips_retried_failures : forall (count : nat) attempt last,
  attempt + Z.of_nat count <= retries this ->
  (forall j, attempt <= j < attempt + Z.of_nat count -> retried_failure transport call j) ->
  request_loop this transport call attempt last
  = (fst (request_loop this transport call (attempt + Z.of_nat count) last),
     retried call attempt count
       ++ snd (request_loop this transport call (attempt + Z.of_nat count) last)).
Proof.
  induction count as [| count IH]; intros attempt last Hle Hfail.
  - rewrite Z.add_0_r. cbn. destruct (request_loop this transport call attempt last).
    reflexivity.
  - destruct (Hfail attempt) as (error & Honce & Hc); [lia |].
    rewrite (loop_retry this transport call attempt last error); auto; try lia.
    rewrite (IH (attempt + 1) (Some error)); [| lia | intros j Hj; apply Hfail; lia].
    replace (attempt + 1 + Z.of_nat count) with (attempt + Z.of_nat (S count)) by lia.
    cbn [fst snd retried].
    rewrite (loop_ignores_lastError _ (Some error) last) by lia.
    reflexivity.
Qed.

End Runs.

Lemma attempts_of_run call attempt count :
  attempts (retried call attempt count ++ [Fetch (attempt + Z.of_nat count) call])
  = map (fun i => attempt + Z.of_nat i) (seq 0 (S count)).
Proof.
  revert attempt. induction count as [| count IH]; intros attempt.
  - cbn. rewrite Z.add_0_r. reflexivity.
  - cbn [retried app attempts].
    replace (attempt + Z.of_nat (S count)) with (attempt + 1 + Z.of_nat count) by lia.
    rewrite IH.
    change (seq 0 (S (S count))) with (0%nat :: seq 1 (S count)).
    rewrite <- seq_shift, map_cons, map_map, Z.add_0_r. f_equal.
    apply map_ext. intros i. lia.
Qed.

Lemma delays_of_run call attempt count final :
  delays (retried call attempt count ++ [Fetch final call])
  = map (fun i => backoff (attempt + Z.of_nat i)) (seq 0 count).
Proof.
  revert attempt. induction count as [| count IH]; intros attempt.
  - reflexivity.
  - cbn [retried app delays]. rewrite IH.
    change (seq 0 (S count)) with (0%nat :: seq 1 count).
    rewrite <- seq_shift, map_cons, map_map, Z.add_0_r. f_equal.
    apply map_ext. intros i. f_equal. lia.
Qed.

Lemma backoff_range attempt : 0 <= attempt -> 1000 <= backoff attempt <= 10000.
Proof.
  intros Hpos. unfold backoff.
  assert (2 ^ 0 <= 2 ^ attempt) by (apply Z.pow_le_mono_r; lia).
  change (2 ^ 0) with 1 in *. lia.
Qed.

Lemma total_of_bounded_delays (l : list Z) :
  Forall (fun ms => 1000 <= ms <= 10000) l ->
  fold_right Z.add 0 l <= 10000 * Z.of_nat (List.length l).
Proof.
  induction 1 as [| ms l Hms _ IH]; cbn [fold_right List.length]; lia.
Qed.

(** X1: whatever the server does, [request] issues the attempts 0, 1, 2, ...
    in order and at most [retries + 1] of them, sleeps exactly once between
    two consecutive attempts, each time for at least 1000 ms and at most
    10000 ms, and so sleeps for at most [10000 * retries] ms in all. *)
Theorem attempts_and_waits_are_bounded this transport endpoint options :
  Z.of_nat (List.length (attempts (snd (request this transport endpoint options))))
    <= Z.max 0 (retries this + 1)
  /\ attempts (snd (request this transport endpoint options))
     = map Z.of_nat
         (seq 0 (List.length (attempts (snd (request this transport endpoint options)))))
  /\ List.length (delays (snd (request this transport endpoint options)))
     = pred (List.length (attempts (snd (request this transport endpoint options))))
  /\ Forall (fun ms => 1000 <= ms <= 10000)
       (delays (snd (request this transport endpoint options)))
  /\ total_wait (snd (request this transport endpoint options))
     <= 10000 * Z.max 0 (retries this).
Proof.
  unfold request, total_wait. set (call := fetch_call this endpoint options).
  destruct (Z_lt_le_dec (retries this) 0) as [Hneg | Hpos].
  - rewrite (loop_exit this transport call 0 None) by lia.
    cbn [fst snd attempts delays List.length fold_right seq map pred Z.of_nat].
    repeat split; try lia. constructor.
  - destruct (loop_run this transport call _ 0 None eq_refl Hpos)
      as (count & Hfin & Htr & _).
    rewrite Htr, attempts_of_run, delays_of_run, !length_map, !length_seq.
    assert (Forall (fun ms => 1000 <= ms <= 10000)
              (map (fun i => backoff (0 + Z.of_nat i)) (seq 0 count))) as Hall.
    { apply Forall_forall. intros ms Hin. apply in_map_iff in Hin as (i & <- & _).
      apply backoff_range. lia. }
    split; [lia |].
    split; [apply map_ext; intros i; lia |].
    split; [reflexivity |].
    split; [exact Hall |].
    apply total_of_bounded_delays in Hall.
    rewrite length_map, length_seq in Hall. lia.
Qed.

(** X2: [request] ends at the first attempt that returns or throws an error
    that is not retried, or at attempt [retries]: when the attempts before
    index [k] all fail with retried errors and attempt [k] is such an
    attempt, the result of [request] is the completion of attempt [k], after
    [k] waits.  In particular the first success is what the caller gets. *)
Theorem request_ends_at_the_first_decisive_attempt
    this transport endpoint options (k : nat) :
  Z.of_nat k <= retries this ->
  (forall j, 0 <= j < Z.of_nat k ->
     retried_failure transport (fetch_call this endpoint options) j) ->
  (Z.of_nat k = retries this
   \/ ~ retried_failure transport (fetch_call this endpoint options) (Z.of_nat k)) ->
  request this transport endpoint options
  = (attempt_once transport (fetch_call this endpoint options) (Z.of_nat k),
     retried (fetch_call this endpoint options) 0 k
       ++ [Fetch (Z.of_nat k) (fetch_call this endpoint options)]).
Proof.
  intros Hle Hfail Hlast. unfold request.
  set (call := fetch_call this endpoint options) in *.
  rewrite (loop_skips_retried_failures this transport call k 0 None); auto.
  rewrite Z.add_0_l.
  assert (request_loop this transport call (Z.of_nat k) None
          = (attempt_once transport call (Z.of_nat k), [Fetch (Z.of_nat k) call])) as ->;
    [| reflexivity].
  destruct (attempt_once transport call (Z.of_nat k)) as [value | error] eqn:Honce.
  - apply loop_return; auto.
  - destruct (is_client_error error) eqn:Hc.
    + apply loop_client_error; auto.
    + destruct Hlast as [Heq | Hnot].
      * rewrite Heq in *. apply loop_last_attempt; auto.
      * exfalso. apply Hnot. exists error. auto.
Qed.

(** Two refused connections, then a 200 with an envelope: the caller gets
    the payload, after waits of 1000 and 2000 ms. *)
Lemma request_ends_at_the_first_decisive_attempt_witness :
  request default_client recovering_server "/scrape" empty_options
  = (Return (Some (JNum 7)),
     [Fetch 0 scrape_call; Sleep 1000; Fetch 1 scrape_call; Sleep 2000; Fetch 2 scrape_call]).
Proof.
  assert (Z.of_nat 2 <= retries default_client) as Hle by (cbn; lia).
  assert (forall j, 0 <= j < Z.of_nat 2 ->
            retried_failure recovering_server
              (fetch_call default_client "/scrape" empty_options) j) as Hfail.
  { intros j Hj. assert (j = 0 \/ j = 1) as [-> | ->] by lia;
      (eexists; split; reflexivity). }
  assert (Z.of_nat 2 = retries default_client
          \/ ~ retried_failure recovering_server
                (fetch_call default_client "/scrape" empty_options) (Z.of_nat 2)) as Hlast.
  { right. intros (error & Honce & _). discriminate. }
  exact (request_ends_at_the_first_decisive_attempt default_client recovering_server
           "/scrape" empty_options 2 Hle Hfail Hlast).
Defined.

(* ------------------------------------------------------------------ *)
(** ** The errors [request] throws *)
(* ------------------------------------------------------------------ *)

Lemma InsufficientCreditsError_new_fields required remaining e :
  InsufficientCreditsError_new required remaining = Return e ->
  class e = InsufficientCreditsErrorC required remaining
  /\ details e = Some [("creditsRequired", required); ("creditsRemaining", remaining)].
Proof.
  unfold InsufficientCreditsError_new. intros H.
  apply bind_Return_inv in H as (r1 & _ & H).
  apply bind_Return_inv in H as (r2 & _ & H).
  injection H as <-. auto.
Qed.

Lemma val_or_truthy v d :
  truthy (Some (val_or v d)) = true \/ val_or v d = d.
Proof.
  destruct v as [j |]; cbn [val_or]; [| auto].
  destruct (truthy (Some j)) eqn:Ht; auto.
Qed.

(** The class of the error [handleErrorResponse] builds follows from the
    status alone, and the fields of the class from the body. *)
Lemma classify_table s data e :
  classify s data = Return e ->
  fields_filled_by_the_engine e
  /\ match class e with
     | AuthenticationErrorC => s = 401
     | InsufficientCreditsErrorC _ _ => s = 402
     | AuthorizationErrorC => s = 403
     | NotFoundErrorC => s = 404 /\ message e = "Resource not found"
     | RateLimitErrorC _ => s = 429
     | ServerErrorC => 500 <= s
     | ScrapebitErrorC =>
         s < 500 /\ s <> 401 /\ s <> 402 /\ s <> 403 /\ s <> 404 /\ s <> 429
     | _ => False
     end.
Proof.
  unfold classify, fields_filled_by_the_engine. intros H.
  apply bind_Return_inv in H as (error & _ & H).
  apply bind_Return_inv in H as (msg0 & _ & H).
  apply bind_Return_inv in H as (code & _ & H).
  destruct (Z.eqb_spec s 401) as [-> | N401].
  { apply bind_Return_inv in H as (msg & _ & H). injection H as <-. cbn. auto. }
  destruct (Z.eqb_spec s 402) as [-> | N402].
  { apply bind_Return_inv in H as (required & _ & H).
    apply bind_Return_inv in H as (remaining & _ & H).
    apply InsufficientCreditsError_new_fields in H as [-> ->].
    split; [| reflexivity]. split; [| split; [| reflexivity]].
    - destruct (val_or_truthy required (JNum 1)) as [Ht | ->]; [exact Ht | reflexivity].
    - apply val_or_truthy. }
  destruct (Z.eqb_spec s 403) as [-> | N403].
  { apply bind_Return_inv in H as (msg & _ & H). injection H as <-. cbn. auto. }
  destruct (Z.eqb_spec s 404) as [-> | N404].
  { injection H as <-. cbn. auto. }
  destruct (Z.eqb_spec s 429) as [-> | N429].
  { apply bind_Return_inv in H as (raw & _ & H).
    apply bind_Return_inv in H as (parsed & _ & H). injection H as <-.
    split; [| reflexivity]. cbn [class RateLimitError_new].
    destruct parsed as [n |]; [| cbn; auto].
    destruct (Z.eqb_spec n 0) as [-> | Hn]; [cbn; auto |].
    cbn. apply Z.eqb_neq in Hn. rewrite Hn. cbn. apply Z.eqb_neq in Hn. auto. }
  destruct (Z.leb_spec 500 s) as [G | L].
  { apply bind_Return_inv in H as (msg & _ & H). injection H as <-. cbn. auto. }
  apply bind_Return_inv in H as (msg & _ & H). injection H as <-.
  cbn. repeat split; auto.
Qed.

(** An SDK error thrown by [handleResponse] is the [ServerError] of an
    undecodable failure response or the classification of a decoded one. *)
Lemma handleResponse_error_origin response e :
  handleResponse response = Throw (ThrownError e) ->
  ok response = false
  /\ ((body response = None
       /\ e = ServerError_new (status response)
                (Some ("HTTP " ++ string_of_Z (status response) ++ ": "
                         ++ statusText response)%string))
      \/ (exists data, body response = Some data
                       /\ classify (status response) data = Return e)).
Proof.
  unfold handleResponse. destruct (body response) as [data |] eqn:Hbody.
  - destruct (ok response); cbn [negb].
    + destruct data; cbn; try discriminate.
      destruct (has_key "success" fields); cbn; try discriminate.
      destruct (has_key "data" fields); cbn; discriminate.
    + unfold handleErrorResponse.
      destruct (classify (status response) data) as [e' | t] eqn:Hc; [| discriminate].
      intros H. injection H as <-. split; [reflexivity |]. right. eauto.
  - destruct (ok response); cbn [negb]; [discriminate |].
    intros H. injection H as <-. split; [reflexivity |]. left. auto.
Qed.

Lemma not_ok_status response :
  ok response = false -> status response < 200 \/ 299 < status response.
Proof. unfold ok. intros H. apply andb_false_iff in H as [H | H]; lia. Qed.

(** Where an SDK error thrown by [request] comes from. *)
Lemma request_error_origin this transport endpoint options e :
  fst (request this transport endpoint options) = Throw (ThrownError e) ->
  e = ScrapebitError_new "Request failed after retries" None None
  \/ e = TimeoutError_new (call_timeout (fetch_call this endpoint options))
  \/ (exists message, e = NetworkError_new (Some message))
  \/ (exists response, handleResponse response = Throw (ThrownError e)).
Proof.
  intros Hres.
  destruct (request_result_origin this transport endpoint options)
    as [[_ Hgen] | (attempt & _ & Honce)].
  - rewrite Hgen in Hres. injection Hres as <-. auto.
  - rewrite Honce in Hres.
    apply attempt_once_error in Hres
      as [(m & _ & ->) | [(n & m & _ & _ & ->) | (response & _ & Hh)]]; eauto.
Qed.

(** X3: every SDK error that leaves [request] fits the table of classes: its
    class goes with its status code (401 Authentication, 402
    InsufficientCredits, 403 Authorization, 404 NotFound, 429 RateLimit, 408
    Timeout, none for Network), a Server error or a plain [ScrapebitError]
    built from a response carries a status outside 2xx, and the engine
    never throws a [ValidationError]. *)
Theorem errors_thrown_by_request_fit_the_table this transport endpoint options e :
  fst (request this transport endpoint options) = Throw (ThrownError e) ->
  thrown_by_the_engine e.
Proof.
  intros Hres. unfold thrown_by_the_engine.
  apply request_error_origin in Hres
    as [-> | [-> | [(m & ->) | (response & Hh)]]]; cbn; auto.
  apply handleResponse_error_origin in Hh as (Hok & [[_ ->] | (data & _ & Hc)]).
  - cbn. apply not_ok_status in Hok. eauto.
  - apply not_ok_status in Hok.
    pose proof (classify_status _ _ _ Hc) as [Hst _].
    apply classify_table in Hc as [_ Hc].
    destruct (class e); try contradiction; try (rewrite Hst; f_equal; tauto).
    + right. exists (status response). repeat split; auto; try tauto.
    + destruct Hc as [H404 Hmsg]. rewrite Hst, H404. auto.
    + exists (status response). auto.
Qed.

(** A 403 answered with a JSON body. *)
Lemma errors_thrown_by_request_fit_the_table_witness :
  thrown_by_the_engine (AuthorizationError_new (Some "plan does not include monitoring")).
Proof.
  apply (errors_thrown_by_request_fit_the_table default_client
           (always (Resolved forbidden_json)) "/monitoring" empty_options).
  reflexivity.
Defined.

(** X4: the fields that the subclasses add are always filled the same way in
    an error that leaves [request]: the retry hint of a RateLimit error is
    absent or a non-zero integer, never 0, and is repeated in the details;
    the credits required of an InsufficientCredits error are truthy, its
    credits remaining are truthy or the number 0, and both are repeated in
    the details. *)
Theorem subclass_fields_of_thrown_errors this transport endpoint options e :
  fst (request this transport endpoint options) = Throw (ThrownError e) ->
  fields_filled_by_the_engine e.
Proof.
  intros Hres.
  apply request_error_origin in Hres
    as [-> | [-> | [(m & ->) | (response & Hh)]]]; try exact I.
  apply handleResponse_error_origin in Hh as (_ & [[_ ->] | (data & _ & Hc)]).
  - exact I.
  - apply classify_table in Hc as [Hfields _]. exact Hfields.
Qed.

(** A 429 whose [retryAfter] is the string ["0"], and a 402 whose credit
    fields are [0] and [null]. *)
Lemma subclass_fields_of_thrown_errors_witness :
  fields_filled_by_the_engine (RateLimitError_new None)
  /\ fields_filled_by_the_engine
       (mkScrapebitError (InsufficientCreditsErrorC (JNum 1) (JNum 0))
          "Insufficient credits. Required: 1, Remaining: 0"
          (JStr "INSUFFICIENT_CREDITS") (Some 402)
          (Some [("creditsRequired", JNum 1); ("creditsRemaining", JNum 0)])).
Proof.
  split.
  - apply (subclass_fields_of_thrown_errors default_client
             (always (Resolved (mkResponse 429 "Too Many Requests"
                                  (Some (JObj [("retryAfter", JStr "0")])))))
             "/scrape" empty_options).
    reflexivity.
  - apply (subclass_fields_of_thrown_errors default_client
             (always (Resolved (mkResponse 402 "Payment Required"
                                  (Some (JObj [("creditsRequired", JNum 0);
                                               ("creditsRemaining", JNull)])))))
             "/scrape" empty_options).
    reflexivity.
Defined.

(* ------------------------------------------------------------------ *)
(** ** Headers, verbs and configuration *)
(* ------------------------------------------------------------------ *)

Lemma assoc_app {A} key (l1 l2 : list (string * A)) :
  assoc key (l1 ++ l2) = match assoc key l1 with Some v => Some v | None => assoc key l2 end.
Proof.
  induction l1 as [| [k v] l1 IH]; cbn; [reflexivity |].
  destruct (key =? k)%string; auto.
Qed.

Lemma assoc_set_key {A} key k (v : A) l :
  assoc key (set_key k v l) = if (key =? k)%string then Some v else assoc key l.
Proof.
  induction l as [| [k' v'] l IH]; cbn.
  - destruct (key =? k)%string; reflexivity.
  - destruct (String.eqb_spec k k') as [<- | Hne]; cbn.
    + destruct (key =? k)%string; reflexivity.
    + rewrite IH. destruct (String.eqb_spec key k') as [-> | Hne'].
      * apply String.eqb_neq in Hne. rewrite String.eqb_sym, Hne. reflexivity.
      * reflexivity.
Qed.

(** Looking a key up in [{ ...target, ...source }]. *)
Lemma assoc_spread {A} key (source target : list (string * A)) :
  assoc key (spread target source)
  = match last_binding key source with Some v => Some v | None => assoc key target end.
Proof.
  unfold spread, last_binding. revert target.
  induction source as [| [k v] source IH]; intros target; cbn [fold_left rev fst snd].
  - reflexivity.
  - rewrite IH, assoc_app, assoc_set_key. cbn [assoc].
    destruct (assoc key (rev source)); [reflexivity |].
    destruct (key =? k)%string; reflexivity.
Qed.

(** X7: the header that a call carries under a name is the per-call one when
    the call gives it, else the configured one when the configuration gives
    it, else the default one ([Authorization: Bearer <key>], [Content-Type]
    and [User-Agent]), and there is none otherwise.  So a configured or
    per-call [Authorization] header replaces the bearer token. *)
Theorem header_precedence this endpoint options name :
  assoc name (call_headers (fetch_call this endpoint options))
  = match last_binding name (match opt_headers options with Some h => h | None => [] end) with
    | Some value => Some value
    | None =>
        match last_binding name (customHeaders this) with
        | Some value => Some value
        | None => assoc name (default_headers this)
        end
    end.
Proof.
  unfold fetch_call. cbn [call_headers]. rewrite !assoc_spread. reflexivity.
Qed.

(** X8: the key given to the facade is the bearer token of every call of the
    client it builds, unless the configuration or the call sets an
    [Authorization] header of its own; this holds whether or not the key
    has the [sb_live_] prefix. *)
Theorem facade_key_is_the_bearer_token key config client warnings endpoint options :
  Scrapebit_new (Some (JStr key)) config = (Return client, warnings) ->
  last_binding "Authorization" (match cfg_headers config with Some h => h | None => [] end)
    = None ->
  last_binding "Authorization" (match opt_headers options with Some h => h | None => [] end)
    = None ->
  assoc "Authorization" (call_headers (fetch_call (http client) endpoint options))
  = Some ("Bearer " ++ key)%string
  /\ warnings = (if String.prefix "sb_live_" key then [] else [prefix_warning]).
Proof.
  unfold Scrapebit_new. intros Hnew Hcfg Hopt.
  destruct (truthy (Some (JStr key))); cbn [negb] in Hnew; [| discriminate].
  injection Hnew as <- <-. cbn [http].
  unfold fetch_call. cbn [call_headers]. rewrite !assoc_spread.
  fold (default_headers (HttpClient_new key config)). rewrite Hopt.
  assert (last_binding "Authorization" (customHeaders (HttpClient_new key config)) = None)
    as Hcustom by exact Hcfg.
  rewrite Hcustom. split; [reflexivity |].
  destruct (String.prefix "sb_live_" key); reflexivity.
Qed.

(** A key without the prefix: the client is built, with one warning. *)
Lemma facade_key_is_the_bearer_token_witness :
  assoc "Authorization"
    (call_headers (fetch_call (HttpClient_new "test_key" empty_config) "/usage" empty_options))
  = Some "Bearer test_key"
  /\ [prefix_warning] = (if String.prefix "sb_live_" "test_key" then [] else [prefix_warning]).
Proof.
  exact (facade_key_is_the_bearer_token "test_key" empty_config
           (mkScrapebit "1.0.0" (HttpClient_new "test_key" empty_config))
           [prefix_warning] "/usage" empty_options eq_refl eq_refl eq_refl).
Defined.

Lemma calls_of_run call attempt count final :
  calls (retried call attempt count ++ [Fetch final call]) = repeat call (S count).
Proof.
  revert attempt. induction count as [| count IH]; intros attempt; [reflexivity |].
  cbn [retried app calls]. rewrite IH. reflexivity.
Qed.

(** Every [fetch] of a request is issued with the same arguments. *)
Lemma calls_of_request this transport endpoint options :
  Forall (eq (fetch_call this endpoint options))
    (calls (snd (request this transport endpoint options))).
Proof.
  unfold request. set (call := fetch_call this endpoint options).
  destruct (Z_lt_le_dec (retries this) 0) as [Hneg | Hpos].
  - rewrite (loop_exit this transport call 0 None) by lia. constructor.
  - destruct (loop_run this transport call _ 0 None eq_refl Hpos)
      as (count & _ & Htr & _).
    rewrite Htr, calls_of_run. apply Forall_forall. intros c Hin.
    apply repeat_spec in Hin. auto.
Qed.

(** X9: the verbs fix the method of every [fetch] they issue, whatever the
    options.  [get] and [delete] never send a body; [post], [put] and
    [patch] send the body they are given only when it is truthy, so that
    [0], [false], [''] and [null] are sent as no body at all. *)
Theorem verbs_fix_method_and_drop_falsy_bodies this transport endpoint body options :
  Forall (fun c => call_method c = GET /\ call_body c = undefined)
    (calls (snd (Verbs.get this transport endpoint options)))
  /\ Forall (fun c => call_method c = DELETE /\ call_body c = undefined)
       (calls (snd (Verbs.delete this transport endpoint options)))
  /\ Forall (fun c => call_method c = POST
                      /\ call_body c = if truthy body then body else undefined)
       (calls (snd (Verbs.post this transport endpoint body options)))
  /\ Forall (fun c => call_method c = PUT
                      /\ call_body c = if truthy body then body else undefined)
       (calls (snd (Verbs.put this transport endpoint body options)))
  /\ Forall (fun c => call_method c = PATCH
                      /\ call_body c = if truthy body then body else undefined)
       (calls (snd (Verbs.patch this transport endpoint body options)))
  /\ (forall falsy,
        In falsy [undefined; Some JNull; Some (JBool false); Some (JNum 0); Some (JStr "")] ->
        Forall (fun c => call_body c = undefined)
          (calls (snd (Verbs.post this transport endpoint falsy options)))).
Proof.
  assert (forall method value,
            Forall (fun c => call_method c = method
                             /\ call_body c = if truthy value then value else undefined)
              (calls (snd (request this transport endpoint
                             (Verbs.with_verb options method value))))) as Hverb.
  { intros method value.
    eapply Forall_impl; [| apply calls_of_request].
    intros c <-. split; reflexivity. }
  split; [apply (Hverb GET undefined) |].
  split; [apply (Hverb DELETE undefined) |].
  split; [apply (Hverb POST body) |].
  split; [apply (Hverb PUT body) |].
  split; [apply (Hverb PATCH body) |].
  intros falsy Hin.
  eapply Forall_impl; [| apply (Hverb POST falsy)].
  intros c [_ Hb]. rewrite Hb.
  cbn in Hin. destruct Hin as [<- | [<- | [<- | [<- | [<- | []]]]]]; reflexivity.
Qed.

(** X10: a [post] is retried like any other request: against a server whose
    every attempt fails with a retried error, the same POST with the same
    body is sent [retries + 1] times. *)
Theorem post_is_sent_again_on_every_retry this transport endpoint body options :
  0 <= retries this ->
  truthy body = true ->
  (forall attempt,
      retried_failure transport
        (fetch_call this endpoint (Verbs.with_verb options POST body)) attempt) ->
  snd (Verbs.post this transport endpoint body options)
  = retried (fetch_call this endpoint (Verbs.with_verb options POST body)) 0
      (Z.to_nat (retries this))
    ++ [Fetch (retries this) (fetch_call this endpoint (Verbs.with_verb options POST body))]
  /\ call_method (fetch_call this endpoint (Verbs.with_verb options POST body)) = POST
  /\ call_body (fetch_call this endpoint (Verbs.with_verb options POST body)) = body.
Proof.
  intros Hpos Hbody Hfail. unfold Verbs.post, request.
  set (call := fetch_call this endpoint (Verbs.with_verb options POST body)) in *.
  destruct (loop_exhausts this transport call 0 None Hpos) as [Htr _].
  { intros k _. apply Hfail. }
  rewrite Z.sub_0_r in Htr. split; [exact Htr |]. split; [reflexivity |].
  unfold call. cbn. rewrite Hbody. reflexivity.
Qed.

(** A scrape order against a server that is down: four POSTs. *)
Lemma post_is_sent_again_on_every_retry_witness :
  attempts (snd (Verbs.post default_client (always (Resolved unavailable)) "/scrape"
                   (Some (JObj [("url", JStr "https://example.com")])) None))
  = [0; 1; 2; 3]
  /\ call_method (fetch_call default_client "/scrape"
                    (Verbs.with_verb None POST
                       (Some (JObj [("url", JStr "https://example.com")])))) = POST.
Proof.
  assert (0 <= retries default_client) as Hpos by (cbn; lia).
  assert (forall attempt,
            retried_failure (always (Resolved unavailable))
              (fetch_call default_client "/scrape"
                 (Verbs.with_verb None POST
                    (Some (JObj [("url", JStr "https://example.com")]))))
              attempt) as Hfail.
  { intros attempt. eexists. split; reflexivity. }
  pose proof (post_is_sent_again_on_every_retry default_client
                (always (Resolved unavailable)) "/scrape"
                (Some (JObj [("url", JStr "https://example.com")])) None
                Hpos eq_refl Hfail) as [Htr [Hm _]].
  split; [rewrite Htr; reflexivity | exact Hm].
Defined.

(** X6: a negative retry count is kept by the constructor, and an engine that
    has one sends nothing: every request throws the generic error
    "Request failed after retries" without a single [fetch]. *)
Theorem negative_retries_send_nothing apiKey config n transport endpoint options :
  cfg_retries config = Some n ->
  n < 0 ->
  retries (HttpClient_new apiKey config) = n
  /\ request (HttpClient_new apiKey config) transport endpoint options
     = (Throw (ThrownError (ScrapebitError_new "Request failed after retries" None None)),
        []).
Proof.
  intros Hcfg Hneg.
  assert (retries (HttpClient_new apiKey config) = n) as Hr.
  { cbn. rewrite Hcfg. cbn. destruct (Z.eqb_spec n 0); [lia | reflexivity]. }
  split; [exact Hr |].
  unfold request. apply (loop_exit (HttpClient_new apiKey config)). lia.
Qed.

(** [new Scrapebit(key, { retries: -1 })] *)
Lemma negative_retries_send_nothing_witness :
  retries (HttpClient_new "sb_live_key" (mkConfig None None (Some (-1)) None)) = -1
  /\ request (HttpClient_new "sb_live_key" (mkConfig None None (Some (-1)) None))
       (always (Resolved no_content)) "/usage" empty_options
     = (Throw (ThrownError (ScrapebitError_new "Request failed after retries" None None)),
        []).
Proof.
  apply (negative_retries_send_nothing "sb_live_key" (mkConfig None None (Some (-1)) None)
           (-1)); [reflexivity | lia].
Defined.

(* ------------------------------------------------------------------ *)
(** ** The retry hint of a 429 *)
(* ------------------------------------------------------------------ *)









(** The white space that [parseInt] skips includes the no-break space, the
    byte order mark and the line separator; a letter is not skipped. *)
Lemma parseInt10_skips_unicode_white_space :
  parseInt10 nbsp_30 = Some 30
  /\ parseInt10 (String (ascii_of_nat 239) (String (ascii_of_nat 187)
                   (String (ascii_of_nat 191) " -7 days"))) = Some (-7)
  /\ parseInt10 (String (ascii_of_nat 226) (String (ascii_of_nat 128)
                   (String (ascii_of_nat 168) "+12"))) = Some 12
  /\ parseInt10 (String (ascii_of_nat 226) (String (ascii_of_nat 128)
                   (String (ascii_of_nat 139) "12"))) = None
  /\ parseInt10 "x30" = None.
Proof. repeat split. Qed.

(* ------------------------------------------------------------------ *)
(** ** The API modules: paths and queries *)
(* ------------------------------------------------------------------ *)

(** X14: an id is interpolated into the path as it is, with no escaping: an id
    that continues with a sub-path selects that sub-resource, so that
    [get] on such an id is the call another method makes. *)
Theorem ids_are_interpolated_verbatim http transport id monitorId channelId :
  ContentApi.get http transport (id ++ "/export/csv")%string
  = ContentApi.exportCsv http transport id
  /\ ContentApi.get http transport (id ++ "/export/json")%string
     = ContentApi.exportJson http transport id
  /\ MonitoringApi.delete http transport (monitorId ++ "/channels/" ++ channelId)%string
     = MonitoringApi.deleteChannel http transport monitorId channelId
  /\ (forall query,
        Forall (fun c => call_url c
                         = (baseUrl http ++ "/scrape/" ++ id ++ "?" ++ query)%string)
          (calls (snd (ContentApi.get http transport (id ++ "?" ++ query)%string)))).
Proof.
  split; [reflexivity |]. split; [reflexivity |]. split; [reflexivity |].
  intros query. unfold ContentApi.get, Api.returned, Verbs.get. cbn [snd].
  eapply Forall_impl; [| apply calls_of_request].
  intros c <-. reflexivity.
Qed.

Lemma count_char_app c s1 s2 :
  count_char c (s1 ++ s2)%string = (count_char c s1 + count_char c s2)%nat.
Proof. induction s1 as [| c1 s1 IH]; cbn; [reflexivity | rewrite IH; lia]. Qed.

(** The serializer emits nothing but unreserved characters, [+] and [%]. *)
Lemma encode_emits s : all_chars emitted (URLSearchParams.encode s) = true.
Proof.
  induction s as [| c s IH]; [reflexivity |].
  destruct c as [[] [] [] [] [] [] [] []]; cbn; exact IH.
Qed.

Lemma count_char_not_emitted c s :
  emitted c = false -> all_chars emitted s = true -> count_char c s = 0%nat.
Proof.
  intros Hc. induction s as [| c' s IH]; cbn; [reflexivity |].
  intros Hall. apply andb_true_iff in Hall as [Hc' Hs].
  rewrite (IH Hs). destruct (Ascii.eqb_spec c c') as [-> | _]; [congruence | reflexivity].
Qed.

Lemma count_char_encode c s :
  emitted c = false -> count_char c (URLSearchParams.encode s) = 0%nat.
Proof. intros Hc. apply count_char_not_emitted; [exact Hc | apply encode_emits]. Qed.

(** One [=] for each pair and one [&] between two pairs, whatever the
    names and the values hold; no [?] and no [#]. *)
Lemma toString_separators params :
  count_char "=" (URLSearchParams.toString params) = List.length params
  /\ count_char "&" (URLSearchParams.toString params) = pred (List.length params)
  /\ count_char "?" (URLSearchParams.toString params) = 0%nat
  /\ count_char "#" (URLSearchParams.toString params) = 0%nat.
Proof.
  induction params as [| [name value] rest (IHe & IHa & IHq & IHh)].
  - repeat split.
  - cbn [URLSearchParams.toString List.length pred].
    rewrite !count_char_app, !count_char_encode by reflexivity.
    destruct rest as [| pair rest].
    + repeat split.
    + rewrite !count_char_app.
      cbn [List.length pred] in *.
      change (count_char "=" "=") with 1%nat. change (count_char "&" "=") with 0%nat.
      change (count_char "?" "=") with 0%nat. change (count_char "#" "=") with 0%nat.
      change (count_char "=" "&") with 0%nat. change (count_char "&" "&") with 1%nat.
      change (count_char "?" "&") with 0%nat. change (count_char "#" "&") with 0%nat.
      rewrite IHe, IHa, IHq, IHh. repeat split; lia.
Qed.

Lemma set_key_fresh {A} key (value : A) l :
  assoc key l = None -> set_key key value l = l ++ [(key, value)].
Proof.
  induction l as [| [k v] l IH]; cbn; [reflexivity |].
  destruct (key =? k)%string; [discriminate |]. intros H. rewrite (IH H). reflexivity.
Qed.

(** The parameters of [getUsage] are the options that are given, in the
    order [page], [limit], [type], [startDate], [endDate]. *)
Lemma usage_params_given options :
  List.length (CreditsApi.usage_params options) = usage_options_given options.
Proof.
  unfold CreditsApi.usage_params, usage_options_given, Api.paginate.
  destruct options as [[[p l] t sd ed] |]; [| reflexivity].
  cbn [option_map CreditsApi.pagination CreditsApi.type CreditsApi.startDate
         CreditsApi.endDate Api.page Api.limit].
  unfold Api.set_number, Api.set_string, URLSearchParams.set, given_number, given_string.
  destruct p as [p |]; [destruct (p =? 0) |];
    (destruct l as [l |]; [destruct (l =? 0) |]);
    (destruct t as [t |]; [destruct (t =? "")%string |]);
    (destruct sd as [sd |]; [destruct (sd =? "")%string |]);
    (destruct ed as [ed |]; [destruct (ed =? "")%string |]);
    reflexivity.
Qed.

(** X15: the endpoint of [getUsage] holds one parameter for each option that is
    given and none for an option that is absent, [0] or empty: with none
    given it is the bare path, and otherwise the path, one [?], and the
    parameters with one [=] each and one [&] between two of them.  A value
    cannot add a parameter, a second [?] or a fragment: whatever a date or
    a type holds, these counts stay. *)
Theorem usage_query_has_one_parameter_for_each_given_option options :
  (usage_options_given options = 0%nat ->
     Api.with_query "/credits/usage" (CreditsApi.usage_params options) = "/credits/usage")
  /\ count_char "="
       (Api.with_query "/credits/usage" (CreditsApi.usage_params options))
     = usage_options_given options
  /\ count_char "&"
       (Api.with_query "/credits/usage" (CreditsApi.usage_params options))
     = pred (usage_options_given options)
  /\ count_char "?"
       (Api.with_query "/credits/usage" (CreditsApi.usage_params options))
     = Nat.min 1 (usage_options_given options)
  /\ count_char "#"
       (Api.with_query "/credits/usage" (CreditsApi.usage_params options))
     = 0%nat.
Proof.
  rewrite <- usage_params_given.
  destruct (toString_separators (CreditsApi.usage_params options)) as (He & Ha & Hq & Hh).
  unfold Api.with_query.
  destruct (CreditsApi.usage_params options) as [| [name value] rest] eqn:Hparams.
  - repeat split.
  - assert ((URLSearchParams.toString ((name, value) :: rest) =? "")%string = false) as Hne.
    { apply String.eqb_neq. intros Hempty.
      rewrite Hempty in He. cbn in He. discriminate. }
    rewrite Hne, !count_char_app, He, Ha, Hq, Hh.
    split; [intros H; cbn in H; discriminate |].
    repeat split.
Qed.

(* ------------------------------------------------------------------ *)
(** ** The API modules: results *)
(* ------------------------------------------------------------------ *)

(** [request] never returns [undefined]. *)
Lemma handleResponse_returns_a_value response value :
  handleResponse response = Return value -> value <> undefined.
Proof.
  unfold handleResponse. destruct (body response) as [data |].
  - destruct (ok response); cbn [negb]; [| discriminate].
    destruct data; cbn; try discriminate.
    + intros H. injection H as <-. discriminate.
    + unfold has_key. destruct (assoc "success" fields); cbn.
      * destruct (assoc "data" fields) eqn:Hd; cbn.
        -- intros H. injection H as <-. discriminate.
        -- intros H. injection H as <-. discriminate.
      * intros H. injection H as <-. discriminate.
  - destruct (ok response); cbn [negb]; [| discriminate].
    intros H. injection H as <-. discriminate.
Qed.

(** X16: the methods of the monitoring module read [data] from what the engine
    returns, and the engine has already replaced an envelope by its [data].
    So on a 2xx answer to the first attempt: a body [{data: m}] without a
    [success] key gives [m]; a body [{success, data: m}] gives the [data]
    field of [m] itself, which is [undefined] when [m] is an object without
    one, and throws a [TypeError] when [m] is [null]. *)
Theorem monitoring_get_reads_data_of_the_unwrapped_body http transport id response fields :
  0 <= retries http ->
  transport 0 = Resolved response ->
  ok response = true ->
  body response = Some (JObj fields) ->
  (has_key "success" fields = false ->
     fst (MonitoringApi.get http transport id) = Return (assoc "data" fields))
  /\ (has_key "success" fields = true ->
      forall inner,
        assoc "data" fields = Some (JObj inner) ->
        fst (MonitoringApi.get http transport id) = Return (assoc "data" inner))
  /\ (has_key "success" fields = true ->
      assoc "data" fields = Some JNull ->
      fst (MonitoringApi.get http transport id)
      = Throw (Api.Raised (ThrownTypeError (ReadPropertyOfNull "data")))).
Proof.
  intros Hpos Ht Hok Hb.
  unfold MonitoringApi.get, Api.returned_data, Verbs.get, request. cbn [fst].
  rewrite (proj1 (envelope_is_unwrapped http transport _ 0 None response Hpos Ht Hok)
             fields Hb).
  cbn [fst]. split; [| split].
  - intros ->. reflexivity.
  - intros -> inner Hd. unfold has_key. rewrite Hd. cbn. reflexivity.
  - intros -> Hd. unfold has_key. rewrite Hd. reflexivity.
Qed.

(** A monitor sent bare under [data], and the same monitor in the
    envelope with [success]. *)
Lemma monitoring_get_reads_data_of_the_unwrapped_body_witness :
  fst (MonitoringApi.get default_client
         (always (Resolved (mkResponse 200 "OK"
            (Some (JObj [("data", JObj [("id", JStr "mon_1")])])))))
         "mon_1")
  = Return (Some (JObj [("id", JStr "mon_1")]))
  /\ fst (MonitoringApi.get default_client
            (always (Resolved (mkResponse 200 "OK"
               (Some (JObj [("success", JBool true);
                            ("data", JObj [("id", JStr "mon_1")])])))))
            "mon_1")
     = Return undefined.
Proof.
  assert (0 <= retries default_client) as Hpos by (cbn; lia).
  split.
  - exact (proj1 (monitoring_get_reads_data_of_the_unwrapped_body default_client
                    (always (Resolved (mkResponse 200 "OK"
                       (Some (JObj [("data", JObj [("id", JStr "mon_1")])])))))
                    "mon_1" _ _ Hpos eq_refl eq_refl eq_refl) eq_refl).
  - exact (proj1 (proj2 (monitoring_get_reads_data_of_the_unwrapped_body default_client
                    (always (Resolved (mkResponse 200 "OK"
                       (Some (JObj [("success", JBool true);
                                    ("data", JObj [("id", JStr "mon_1")])])))))
                    "mon_1" _ _ Hpos eq_refl eq_refl eq_refl))
                 eq_refl [("id", JStr "mon_1")] eq_refl).
Defined.

(** X17: a [delete] of the content module succeeds on a 2xx answer without a
    body (a 204): one DELETE is sent, nothing is waited for, and the result
    is [undefined].  What [request] throws is thrown unchanged. *)
Theorem delete_succeeds_without_a_body http transport id response :
  0 <= retries http ->
  transport 0 = Resolved response ->
  ok response = true ->
  body response = None ->
  ContentApi.delete http transport id
  = (Return undefined,
     [Fetch 0 (fetch_call http ("/scrape/" ++ id)%string
                 (Verbs.with_verb None DELETE undefined))])
  /\ call_method (fetch_call http ("/scrape/" ++ id)%string
                    (Verbs.with_verb None DELETE undefined)) = DELETE.
Proof.
  intros Hpos Ht Hok Hb. split; [| reflexivity].
  unfold ContentApi.delete, Api.awaited, Verbs.delete, request.
  rewrite (loop_return http transport _ 0 None (Some (JObj []))); [reflexivity | exact Hpos |].
  unfold attempt_once. rewrite Ht. cbn [fetchWithTimeout bind].
  unfold handleResponse. rewrite Hb, Hok. reflexivity.
Qed.

(** [DELETE /scrape/scrape_abc123] answered with 204. *)
Lemma delete_succeeds_without_a_body_witness :
  fst (ContentApi.delete default_client (always (Resolved no_content)) "scrape_abc123")
  = Return undefined
  /\ attempts (snd (ContentApi.delete default_client (always (Resolved no_content))
                      "scrape_abc123"))
     = [0].
Proof.
  assert (0 <= retries default_client) as Hpos by (cbn; lia).
  pose proof (proj1 (delete_succeeds_without_a_body default_client
                       (always (Resolved no_content)) "scrape_abc123" no_content
                       Hpos eq_refl eq_refl eq_refl)) as H.
  rewrite H. split; reflexivity.
Defined.

(** X18: [hasFeature] makes one usage request, whatever the feature.  On a
    usage object with a plan object: [api], [scheduling] and [monitoring]
    are refused only when the plan's limit is the number 0, so a [null]
    limit (unlimited) and a limit that is missing both count as available;
    [pagination] and [integrations] give the plan's field as it is; any
    other name gives [false]. *)
Theorem hasFeature_reads_the_plan http transport feature ufields pfields :
  fst (UsageApi.get http transport) = Return (Some (JObj ufields)) ->
  assoc "plan" ufields = Some (JObj pfields) ->
  snd (UsageApi.hasFeature http transport feature) = snd (UsageApi.get http transport)
  /\ (forall field,
        In (feature, field) [("api", "api_rate_limit_per_day");
                             ("scheduling", "max_scheduled_jobs");
                             ("monitoring", "max_monitors")] ->
        fst (UsageApi.hasFeature http transport feature)
        = Return (Some (JBool (match assoc field pfields with
                               | Some (JNum 0) => false
                               | _ => true
                               end))))
  /\ (forall field,
        In (feature, field) [("pagination", "has_pagination");
                             ("integrations", "has_integrations")] ->
        fst (UsageApi.hasFeature http transport feature) = Return (assoc field pfields))
  /\ (~ In feature ["pagination"; "integrations"; "api"; "scheduling"; "monitoring"] ->
      fst (UsageApi.hasFeature http transport feature) = Return (Some (JBool false))).
Proof.
  intros Hget Hplan. unfold UsageApi.hasFeature. cbn [fst snd]. rewrite Hget.
  cbn [bind]. split; [reflexivity |].
  assert (forall field,
            UsageApi.plan_field (Some (JObj ufields)) field = Return (assoc field pfields))
    as Hfield.
  { intros field. unfold UsageApi.plan_field. cbn. rewrite Hplan. reflexivity. }
  split; [| split].
  - intros field Hin. cbn in Hin.
    destruct Hin as [H | [H | [H | []]]]; injection H as <- <-;
      unfold UsageApi.feature_of; cbn -[UsageApi.plan_field]; rewrite Hfield; cbn;
      destruct (assoc _ pfields) as [[| | [| |] | | |] |]; reflexivity.
  - intros field Hin. cbn in Hin.
    destruct Hin as [H | [H | []]]; injection H as <- <-;
      unfold UsageApi.feature_of; cbn -[UsageApi.plan_field]; apply Hfield.
  - intros Hnot. unfold UsageApi.feature_of.
    destruct (String.eqb_spec feature "pagination") as [-> | _];
      [exfalso; apply Hnot; cbn; auto |].
    destruct (String.eqb_spec feature "integrations") as [-> | _];
      [exfalso; apply Hnot; cbn; auto |].
    destruct (String.eqb_spec feature "api") as [-> | _];
      [exfalso; apply Hnot; cbn; auto |].
    destruct (String.eqb_spec feature "scheduling") as [-> | _];
      [exfalso; apply Hnot; cbn; auto |].
    destruct (String.eqb_spec feature "monitoring") as [-> | _];
      [exfalso; apply Hnot; cbn; auto 6 |].
    reflexivity.
Qed.

(** A plan with unlimited API requests ([null]) and no scheduled jobs. *)
Lemma hasFeature_reads_the_plan_witness :
  fst (UsageApi.hasFeature default_client (always (Resolved usage_answer)) "api")
  = Return (Some (JBool true))
  /\ fst (UsageApi.hasFeature default_client (always (Resolved usage_answer)) "scheduling")
     = Return (Some (JBool false)).
Proof.
  split.
  - exact (proj1 (proj2 (hasFeature_reads_the_plan default_client
                           (always (Resolved usage_answer)) "api" _ _ eq_refl eq_refl))
             "api_rate_limit_per_day" (or_introl eq_refl)).
  - exact (proj1 (proj2 (hasFeature_reads_the_plan default_client
                           (always (Resolved usage_answer)) "scheduling" _ _ eq_refl eq_refl))
             "max_scheduled_jobs" (or_intror (or_introl eq_refl))).
Defined.

(* ------------------------------------------------------------------ *)
(** ** Messages and codes of classified errors *)
(* ------------------------------------------------------------------ *)

(** X12: for a failure response whose body decodes to an object and whose status
    is not 402, 404 or 429, the message of the error is the string of the
    body's [error] field when that is truthy, else of its [message] field
    when that is truthy, else "Unknown error": the default messages of the
    error classes are never used.  A plain [ScrapebitError] takes its code
    from the body's [code] field when that is truthy and is "API_ERROR"
    otherwise. *)
Theorem message_is_error_then_message_then_Unknown_error response fields e :
  handleResponse response = Throw (ThrownError e) ->
  body response = Some (JObj fields) ->
  status response <> 402 -> status response <> 404 -> status response <> 429 ->
  ToString (or_else (assoc "error" fields)
              (or_else (assoc "message" fields) (Some (JStr "Unknown error"))))
  = Return (message e)
  /\ (truthy (assoc "error" fields) = false ->
      truthy (assoc "message" fields) = false ->
      message e = "Unknown error")
  /\ (class e = ScrapebitErrorC ->
      code e = val_or (assoc "code" fields) (JStr "API_ERROR")).
Proof.
  intros Hh Hb N402 N404 N429.
  apply handleResponse_error_origin in Hh as (_ & [[Hnone _] | (data & Hd & Hc)]);
    [congruence |].
  assert (data = JObj fields) as -> by congruence. clear Hd.
  unfold classify in Hc. cbn [get_prop bind] in Hc.
  apply Z.eqb_neq in N402, N404, N429. rewrite N402, N404, N429 in Hc.
  assert (forall chosen build,
            (msg <- ToString chosen ;; Return (build msg)) = Return e ->
            exists msg, ToString chosen = Return msg /\ e = build msg) as Hinv.
  { intros chosen build H. apply bind_Return_inv in H as (msg & Hm & H).
    injection H as <-. eauto. }
  assert (ToString (or_else (assoc "error" fields)
                      (or_else (assoc "message" fields) (Some (JStr "Unknown error"))))
          = Return (message e)
          /\ (class e = ScrapebitErrorC ->
              code e = val_or (assoc "code" fields) (JStr "API_ERROR"))) as [Hmsg Hcode].
  { unfold or_else at 1.
    destruct (truthy (assoc "error" fields)); cbn [bind] in Hc;
      destruct (status response =? 401); try destruct (status response =? 403);
      try destruct (500 <=? status response);
      apply Hinv in Hc as (msg & -> & ->); split; try reflexivity; discriminate. }
  split; [exact Hmsg |]. split; [| exact Hcode].
  intros Herr Hm. unfold or_else in Hmsg. rewrite Herr, Hm in Hmsg.
  cbn in Hmsg. injection Hmsg as <-. reflexivity.
Qed.

(** A 422 whose body names the problem under [message] and gives a code. *)
Lemma message_is_error_then_message_then_Unknown_error_witness :
  ToString (or_else (assoc "error" [("message", JStr "url is not reachable");
                                    ("code", JStr "INVALID_URL")])
              (or_else (assoc "message" [("message", JStr "url is not reachable");
                                         ("code", JStr "INVALID_URL")])
                 (Some (JStr "Unknown error"))))
  = Return (message (ScrapebitError_new "url is not reachable" (Some (JStr "INVALID_URL"))
                       (Some 422)))
  /\ code (ScrapebitError_new "url is not reachable" (Some (JStr "INVALID_URL")) (Some 422))
     = JStr "INVALID_URL".
Proof.
  pose proof (message_is_error_then_message_then_Unknown_error
                (mkResponse 422 "Unprocessable Entity"
                   (Some (JObj [("message", JStr "url is not reachable");
                                ("code", JStr "INVALID_URL")])))
                [("message", JStr "url is not reachable"); ("code", JStr "INVALID_URL")]
                (ScrapebitError_new "url is not reachable" (Some (JStr "INVALID_URL"))
                   (Some 422))
                eq_refl eq_refl) as H.
  destruct H as (Hmsg & _ & Hcode); try (cbn; lia).
  split; [exact Hmsg | exact (Hcode eq_refl)].
Defined.

(** X13: a value returned by [request] is never [undefined]: it is the decoded
    body, its [data] field, which exists, or the empty object.  So the
    methods that read [data] from the result never fail for reading a
    property of [undefined]. *)
Theorem request_never_returns_undefined this transport endpoint options value :
  fst (request this transport endpoint options) = Return value ->
  value <> undefined
  /\ forall id prop,
       fst (MonitoringApi.get this transport id)
       <> Throw (Api.ReadPropertyOfUndefined prop).
Proof.
  intros Hres.
  assert (forall endpoint' options' v,
            fst (request this transport endpoint' options') = Return v -> v <> undefined)
    as Hdefined.
  { intros endpoint' options' v Hv.
    destruct (request_result_origin this transport endpoint' options')
      as [[_ Hgen] | (attempt & _ & Honce)]; [congruence |].
    rewrite Honce in Hv. unfold attempt_once in Hv.
    destruct (fetchWithTimeout (transport attempt)
                (call_timeout (fetch_call this endpoint' options'))) as [response | t];
      cbn [bind] in Hv; [| discriminate].
    eapply handleResponse_returns_a_value; eauto. }
  split; [eapply Hdefined; eauto |].
  intros id prop. unfold MonitoringApi.get, Api.returned_data, Verbs.get. cbn [fst].
  destruct (fst (request this transport ("/monitoring/" ++ id)%string
                   (Verbs.with_verb None GET undefined))) as [v | t] eqn:Hv;
    cbn [lift bind]; [| discriminate].
  destruct v as [v |]; [| exfalso; eapply Hdefined; eauto].
  cbn [Api.member]. destruct (get_prop v "data"); cbn; discriminate.
Qed.

(** The bodiless 204 comes back as the empty object. *)
Lemma request_never_returns_undefined_witness :
  Some (JObj []) <> undefined
  /\ forall id prop,
       fst (MonitoringApi.get default_client (always (Resolved no_content)) id)
       <> Throw (Api.ReadPropertyOfUndefined prop).
Proof.
  exact (request_never_returns_undefined default_client (always (Resolved no_content))
           "/usage" empty_options (Some (JObj [])) eq_refl).
Defined.

(** X5: the generic error "Request failed after retries" is what the statement
    after the loop throws; it leaves [request] only when the loop ran no
    iteration at all, that is with a negative retry count.  With a retry
    count of 0 or more, what [request] throws is always what its last
    attempt threw. *)
Theorem generic_error_means_negative_retries this transport endpoint options :
  fst (request this transport endpoint options)
  = Throw (ThrownError (ScrapebitError_new "Request failed after retries" None None)) ->
  retries this < 0.
Proof.
  intros Hres.
  destruct (request_result_origin this transport endpoint options)
    as [[Hneg _] | (attempt & _ & Honce)]; [exact Hneg | exfalso].
  rewrite Honce in Hres.
  apply attempt_once_error in Hres
    as [(m & _ & He) | [(n & m & _ & _ & He) | (response & _ & Hh)]];
    try discriminate.
  apply handleResponse_error in Hh as (_ & Hst & _). discriminate.
Qed.

(** An engine built with [retries: -2]. *)
Lemma generic_error_means_negative_retries_witness :
  retries (HttpClient_new "sb_live_key" (mkConfig None None (Some (-2)) None)) < 0.
Proof.
  exact (generic_error_means_negative_retries
           (HttpClient_new "sb_live_key" (mkConfig None None (Some (-2)) None))
           (always timed_out) "/usage" empty_options eq_refl).
Defined.
